(** * KTP validation and confidence scoring: a shallow embedding

    This development embeds the validation and scoring code of the KTP
    detection service ([app/services/ktp_validator.py], the data model of
    [app/models/ktp_model.py] and the validation step of [verify_ktp] in
    [app/api/endpoints.py]) and proves properties of it.

    Modelling conventions.
    - A Python [str] is a [string]; the embedding covers ASCII text (code
      points below 128), where the character classes used by [int()],
      [str.strip], [str.upper] and the regular expression class [\d] are the
      ones defined below.
    - A Python [int] is a [Z]; a Python [float] is idealised as an exact
      rational [Q] (0.1 is 1/10, 0.3 is 3/10), rounding is not modelled.
    - Exceptions are values of [exn]; code that appends to a local [errors]
      list while it may raise runs in the monad [M], which threads the list
      and the exception outcome.
    - [datetime.now()] is the parameter [now] (one clock reading per call of
      the validator). *)

From Stdlib Require Import ZArith QArith Qminmax List String Ascii Bool Lia Lqa.
From Stdlib Require Import DecimalString.
Import ListNotations.

#[local] Open Scope string_scope.
#[local] Open Scope Z_scope.

(** ** Python strings *)

Module PyStr.

Definition ord (c : ascii) : Z := Z.of_N (N_of_ascii c).

(** The text is ASCII: every code point is below 128.  On such text the
    character classes below are exactly those of Python.  Outside it Python's
    classes are larger: [\d] and [int()] also take the decimal digits of
    other scripts, and [str.isdigit] takes those and the superscript digits
    as well.  A property that needs the classes to agree on a string states
    [is_ascii] of that string. *)
Definition is_ascii (s : string) : bool :=
  forallb (fun c => ord c <? 128) (list_ascii_of_string s).

(** [\d] on ASCII text, and the digits accepted by [int()]. *)
Definition is_digit (c : ascii) : bool := (48 <=? ord c) && (ord c <=? 57).

Definition digit_val (c : ascii) : Z := ord c - 48.

(** [str.isspace] on ASCII text: TAB..CR, FS..US and the space. *)
Definition is_space (c : ascii) : bool :=
  ((9 <=? ord c) && (ord c <=? 13)) || ((28 <=? ord c) && (ord c <=? 32)).

(** The white space [int()] skips around an ASCII literal: TAB..CR and the
    space. *)
Definition is_int_space (c : ascii) : bool :=
  ((9 <=? ord c) && (ord c <=? 13)) || (ord c =? 32).

Definition upper_char (c : ascii) : ascii :=
  if (97 <=? ord c) && (ord c <=? 122)
  then ascii_of_N (N_of_ascii c - 32)
  else c.

(** [s.upper()] *)
Fixpoint upper (s : string) : string :=
  match s with
  | EmptyString => EmptyString
  | String c r => String (upper_char c) (upper r)
  end.

Fixpoint lstrip_by (sp : ascii -> bool) (s : string) : string :=
  match s with
  | EmptyString => EmptyString
  | String c r => if sp c then lstrip_by sp r else s
  end.

Fixpoint rstrip_by (sp : ascii -> bool) (s : string) : string :=
  match s with
  | EmptyString => EmptyString
  | String c r =>
      match rstrip_by sp r with
      | EmptyString => if sp c then EmptyString else String c EmptyString
      | r' => String c r'
      end
  end.

Definition strip_by (sp : ascii -> bool) (s : string) : string :=
  rstrip_by sp (lstrip_by sp s).

(** [s.strip()] *)
Definition strip (s : string) : string := strip_by is_space s.

(** [s[a:b]] for [0 <= a <= b]; like Python's slice it is cut short at the
    end of the string. *)
Definition slice (s : string) (a b : nat) : string := substring a (b - a) s.

(** [s.split(sep)] for a one-character separator. *)
Fixpoint split (sep : ascii) (s : string) : list string :=
  match s with
  | EmptyString => [EmptyString]
  | String c r =>
      if Ascii.eqb c sep then EmptyString :: split sep r
      else match split sep r with
           | p :: ps => String c p :: ps
           | [] => [String c EmptyString]
           end
  end.

(** [a in b] on strings. *)
Fixpoint contains (a b : string) : bool :=
  prefix a b ||
  match b with
  | EmptyString => false
  | String _ r => contains a r
  end.

(** [x in l] on a list of strings. *)
Definition str_in (x : string) (l : list string) : bool :=
  existsb (String.eqb x) l.

(** [str(n)] for an integer. *)
Definition str_of_int (n : Z) : string := NilZero.string_of_int (Z.to_int n).

End PyStr.

Import PyStr.

(** ** Exceptions and the validator's monad *)

Inductive exn : Type := ValueError | IndexError | OverflowError.

Inductive result (A : Type) : Type :=
| Normal (a : A)
| Raise (e : exn).

Arguments Normal {A} a.
Arguments Raise {A} e.

(** The handler clause [except (ValueError, IndexError)]. *)
Definition value_or_index (e : exn) : bool :=
  match e with ValueError | IndexError => true | OverflowError => false end.

(** The handler clause [except ValueError]. *)
Definition value_only (e : exn) : bool :=
  match e with ValueError => true | _ => false end.

(** A computation that may raise and that appends to the [errors] list of
    the function it runs in; the list survives a raise, as a mutated Python
    list does. *)
Definition M (A : Type) : Type := list string -> result A * list string.

Definition ret {A} (a : A) : M A := fun errors => (Normal a, errors).

Definition bind {A B} (m : M A) (f : A -> M B) : M B :=
  fun errors =>
    match m errors with
    | (Normal a, errors') => f a errors'
    | (Raise e, errors') => (Raise e, errors')
    end.

Definition raise {A} (e : exn) : M A := fun errors => (Raise e, errors).

Definition lift {A} (r : result A) : M A := fun errors => (r, errors).

(** [errors.append(msg)] *)
Definition append (msg : string) : M unit :=
  fun errors => (Normal tt, (errors ++ [msg])%list).

(** [errors.extend(msgs)] *)
Definition extend (msgs : list string) : M unit :=
  fun errors => (Normal tt, (errors ++ msgs)%list).

(** [if c: body] *)
Definition when (c : bool) (body : M unit) : M unit :=
  if c then body else ret tt.

(** [try: body  except <caught>: handler] *)
Definition try_except {A} (body : M A) (caught : exn -> bool) (handler : M A)
  : M A :=
  fun errors =>
    match body errors with
    | (Raise e, errors') =>
        if caught e then handler errors' else (Raise e, errors')
    | r => r
    end.

(** A function body that starts with [errors = []] and ends with
    [return errors]. *)
Definition returning_errors (body : M unit) : result (list string) :=
  match body [] with
  | (Normal _, errors) => Normal errors
  | (Raise e, _) => Raise e
  end.

Declare Scope py_scope.
Delimit Scope py_scope with py.
Notation "x <- m ;; k" := (bind m (fun x => k))
  (at level 61, m at next level, right associativity) : py_scope.
Notation "m ;;; k" := (bind m (fun _ => k))
  (at level 61, right associativity) : py_scope.
#[local] Open Scope py_scope.

(** ** [int(s)] *)

Fixpoint digits_acc (s : string) (acc : Z) (after_digit : bool) : result Z :=
  match s with
  | EmptyString => if after_digit then Normal acc else Raise ValueError
  | String c r =>
      if is_digit c then digits_acc r (10 * acc + digit_val c) true
      else if Ascii.eqb c "_"
           then (if after_digit then digits_acc r acc false
                 else Raise ValueError)
           else Raise ValueError
  end.

(** [int(s)] in base 10: white space around, an optional sign, then digits
    with single underscores between them; anything else is a
    [ValueError].  The interpreter's configurable limit on the length of a
    literal (4300 digits by default) is not modelled. *)
Definition py_int (s : string) : result Z :=
  match strip_by is_int_space s with
  | String "+" body => digits_acc body 0 false
  | String "-" body =>
      match digits_acc body 0 false with
      | Normal n => Normal (- n)
      | Raise e => Raise e
      end
  | body => digits_acc body 0 false
  end.

(** [a, b, c = parts] *)
Definition unpack3 (parts : list string) : result (string * string * string) :=
  match parts with
  | [a; b; c] => Normal (a, b, c)
  | _ => Raise ValueError
  end.

(** The runner of a function body that keeps no [errors] list. *)
Definition eval {A} (body : M A) : result A := fst (body []).

(** ** Regular expressions of the validator *)

(** [\d{n}] at the head of [s]; the rest of the string on success. *)
Fixpoint match_digits (n : nat) (s : string) : option string :=
  match n with
  | O => Some s
  | S n' =>
      match s with
      | String c r => if is_digit c then match_digits n' r else None
      | EmptyString => None
      end
  end.

Definition match_char (ch : ascii) (s : string) : option string :=
  match s with
  | String c r => if Ascii.eqb c ch then Some r else None
  | EmptyString => None
  end.

Definition newline : string := String "010"%char EmptyString.

(** [$] without [re.MULTILINE]: the end of the string, or just before a line
    feed that ends the string. *)
Definition at_end (s : string) : bool := String.eqb s "" || String.eqb s newline.

(** [re.match(r'^\d{16}$', nik)], for [nik] an ASCII text ([\d] is then
    [0-9], see [is_ascii]). *)
Definition re_match_nik (nik : string) : bool :=
  match match_digits 16 nik with
  | Some rest => at_end rest
  | None => false
  end.

(** [re.match(r'^\d{3}/\d{3}$', rt_rw)], for [rt_rw] an ASCII text. *)
Definition re_match_rt_rw (rt_rw : string) : bool :=
  match match_digits 3 rt_rw with
  | Some r1 =>
      match match_char "/" r1 with
      | Some r2 =>
          match match_digits 3 r2 with
          | Some rest => at_end rest
          | None => false
          end
      | None => false
      end
  | None => false
  end.

(** ** [datetime] *)

Module Datetime.

Record t : Type := make
  { year : Z; month : Z; day : Z;
    hour : Z; minute : Z; second : Z; microsecond : Z }.

Definition is_leap (y : Z) : bool :=
  (y mod 4 =? 0) && (negb (y mod 100 =? 0) || (y mod 400 =? 0)).

Definition days_in_month (y m : Z) : Z :=
  if m =? 2 then (if is_leap y then 29 else 28)
  else if (m =? 4) || (m =? 6) || (m =? 9) || (m =? 11) then 30
  else 31.

(** The constructor converts its arguments to C [int] first. *)
Definition fits_c_int (n : Z) : bool :=
  (-2147483648 <=? n) && (n <=? 2147483647).

(** [datetime(y, m, d)]: [OverflowError] for an argument that is no C [int],
    [ValueError] for a date that does not exist, midnight of the day
    otherwise. *)
Definition new (y m d : Z) : result t :=
  if negb (fits_c_int y && fits_c_int m && fits_c_int d)
  then Raise OverflowError
  else if (1 <=? y) && (y <=? 9999) && (1 <=? m) && (m <=? 12)
          && (1 <=? d) && (d <=? days_in_month y m)
  then Normal (make y m d 0 0 0 0)
  else Raise ValueError.

Definition fields (a : t) : list Z :=
  [year a; month a; day a; hour a; minute a; second a; microsecond a].

Fixpoint lex_gt (a b : list Z) : bool :=
  match a, b with
  | x :: a', y :: b' => (x >? y) || ((x =? y) && lex_gt a' b')
  | _, _ => false
  end.

(** [a > b] *)
Definition gt (a b : t) : bool := lex_gt (fields a) (fields b).

End Datetime.

(** ** The data model ([app/models/ktp_model.py]) *)

Inductive JenisKelamin : Type := LAKI_LAKI | PEREMPUAN.

Inductive StatusPerkawinan : Type :=
  BELUM_KAWIN | KAWIN | CERAI_HIDUP | CERAI_MATI.

(** The [.value] of an enumeration member. *)
Definition JenisKelamin_value (g : JenisKelamin) : string :=
  match g with
  | LAKI_LAKI => "LAKI-LAKI"
  | PEREMPUAN => "PEREMPUAN"
  end.

Definition StatusPerkawinan_value (s : StatusPerkawinan) : string :=
  match s with
  | BELUM_KAWIN => "BELUM KAWIN"
  | KAWIN => "KAWIN"
  | CERAI_HIDUP => "CERAI HIDUP"
  | CERAI_MATI => "CERAI MATI"
  end.

(** What an f-string prints for a member (class and member name, as
    [Enum.__str__] gives it). *)
Definition JenisKelamin_format (g : JenisKelamin) : string :=
  match g with
  | LAKI_LAKI => "JenisKelamin.LAKI_LAKI"
  | PEREMPUAN => "JenisKelamin.PEREMPUAN"
  end.

Definition StatusPerkawinan_format (s : StatusPerkawinan) : string :=
  match s with
  | BELUM_KAWIN => "StatusPerkawinan.BELUM_KAWIN"
  | KAWIN => "StatusPerkawinan.KAWIN"
  | CERAI_HIDUP => "StatusPerkawinan.CERAI_HIDUP"
  | CERAI_MATI => "StatusPerkawinan.CERAI_MATI"
  end.

Record KTPData : Type := mkKTPData
  { nik : string;
    nama : string;
    tempat_lahir : option string;
    tanggal_lahir : option string;
    jenis_kelamin : option JenisKelamin;
    alamat : option string;
    rt_rw : option string;
    kelurahan : option string;
    kecamatan : option string;
    kabupaten_kota : option string;
    provinsi : option string;
    agama : option string;
    status_perkawinan : option StatusPerkawinan;
    pekerjaan : option string;
    kewarganegaraan : option string;
    berlaku_hingga : option string }.

(** The fields of [KTPValidationResult] that the validation step reads or
    writes ([face_detection], [processing_notes] and [database_id] are
    untouched by it). *)
Record KTPValidationResult : Type := mkKTPValidationResult
  { is_valid_ktp : bool;
    confidence_score : Q;
    extracted_data : option KTPData;
    validation_errors : list string }.

(** Truth value of a string: it is not empty. *)
Definition str_truthy (s : string) : bool := negb (String.eqb s "").

(** Truth value of an optional string: it is there and not empty. *)
Definition opt_truthy (o : option string) : bool :=
  match o with
  | Some s => str_truthy s
  | None => false
  end.

(** [if field: body(field)] for an optional string field. *)
Definition when_str (o : option string) (body : string -> M unit) : M unit :=
  match o with
  | Some s => if str_truthy s then body s else ret tt
  | None => ret tt
  end.

(** ** The validator ([app/services/ktp_validator.py]) *)

Module KTPValidator.

Definition valid_provinces : list string :=
  [ "ACEH"; "SUMATERA UTARA"; "SUMATERA BARAT"; "RIAU"; "JAMBI";
    "SUMATERA SELATAN"; "BENGKULU"; "LAMPUNG"; "KEPULAUAN BANGKA BELITUNG";
    "KEPULAUAN RIAU"; "DKI JAKARTA"; "JAWA BARAT"; "JAWA TENGAH";
    "DI YOGYAKARTA"; "JAWA TIMUR"; "BANTEN"; "BALI"; "NUSA TENGGARA BARAT";
    "NUSA TENGGARA TIMUR"; "KALIMANTAN BARAT"; "KALIMANTAN TENGAH";
    "KALIMANTAN SELATAN"; "KALIMANTAN TIMUR"; "KALIMANTAN UTARA";
    "SULAWESI UTARA"; "SULAWESI TENGAH"; "SULAWESI SELATAN";
    "SULAWESI TENGGARA"; "GORONTALO"; "SULAWESI BARAT"; "MALUKU";
    "MALUKU UTARA"; "PAPUA"; "PAPUA BARAT"; "PAPUA SELATAN";
    "PAPUA TENGAH"; "PAPUA PEGUNUNGAN"; "PAPUA BARAT DAYA" ].

Definition valid_religions : list string :=
  [ "ISLAM"; "KRISTEN"; "KATOLIK"; "HINDU"; "BUDDHA"; "KONGHUCU" ].

Definition valid_genders : list string := [ "LAKI-LAKI"; "PEREMPUAN" ].

Definition valid_marital_status : list string :=
  [ "BELUM KAWIN"; "KAWIN"; "CERAI HIDUP"; "CERAI MATI" ].

(** The messages of the defects. *)
Definition msg_nik_empty : string := "NIK tidak boleh kosong".
Definition msg_nik_shape : string := "NIK harus 16 digit angka".
Definition msg_region : string := "Kode wilayah NIK tidak valid: ".
Definition msg_nik_date : string := "Tanggal lahir dalam NIK tidak valid: ".
Definition msg_sequence : string := "Nomor urut NIK tidak boleh 0000".
Definition msg_name : string := "Nama tidak valid atau terlalu pendek".
Definition msg_day : string := "Tanggal tidak valid: ".
Definition msg_month : string := "Bulan tidak valid: ".
Definition msg_year : string := "Tahun tidak valid: ".
Definition msg_future : string := "Tanggal lahir tidak boleh di masa depan".
Definition msg_date_format : string :=
  "Format tanggal lahir salah. Gunakan DD-MM-YYYY: ".
Definition msg_gender : string := "Jenis kelamin tidak valid: ".
Definition msg_province : string := "Provinsi tidak dikenali: ".
Definition msg_religion : string := "Agama tidak valid: ".
Definition msg_marital : string := "Status perkawinan tidak valid: ".
Definition msg_rt_rw : string := "Format RT/RW tidak valid: ".
Definition msg_cross_sex : string := "Jenis kelamin tidak sesuai dengan NIK".
Definition msg_cross_date : string := "Tanggal lahir tidak sesuai dengan NIK".

Definition _validate_region_code (region_code : string) : bool :=
  if String.eqb (slice region_code 0 2) "00" then false
  else if String.eqb (slice region_code 2 4) "00" then false
  else if String.eqb (slice region_code 4 6) "00" then false
  else true.

Definition _validate_birth_date_in_nik
    (now : Datetime.t) (birth_date_str : string) : result bool :=
  eval
    (try_except
       (day <- lift (py_int (slice birth_date_str 0 2)) ;;
        month <- lift (py_int (slice birth_date_str 2 4)) ;;
        year <- lift (py_int (slice birth_date_str 4 6)) ;;
        let day := if day >? 40 then day - 40 else day in
        if (day <? 1) || (day >? 31) then ret false
        else if (month <? 1) || (month >? 12) then ret false
        else
          let current_year := Datetime.year now in
          let full_year :=
            if year <=? (current_year - 1900) mod 100
            then 2000 + year else 1900 + year in
          test_date <- lift (Datetime.new full_year month day) ;;
          if Datetime.gt test_date now then ret false
          else ret true)
       value_or_index
       (ret false)).

Definition _validate_nik (now : Datetime.t) (nik : string)
  : result (list string) :=
  returning_errors
    (if negb (str_truthy nik) then append msg_nik_empty
     else if negb (re_match_nik nik) then append msg_nik_shape
     else
       let kode_wilayah := slice nik 0 6 in
       when (negb (_validate_region_code kode_wilayah))
            (append (msg_region ++ kode_wilayah)) ;;;
       let tgl_lahir_nik := slice nik 6 12 in
       date_ok <- lift (_validate_birth_date_in_nik now tgl_lahir_nik) ;;
       when (negb date_ok) (append (msg_nik_date ++ tgl_lahir_nik)) ;;;
       let nomor_urut := slice nik 12 16 in
       when (String.eqb nomor_urut "0000") (append msg_sequence)).

Definition _validate_birth_date (now : Datetime.t) (birth_date : string)
  : result (list string) :=
  returning_errors
    (try_except
       (parts <- lift (unpack3 (split "-" birth_date)) ;;
        let '(day, month, year) := parts in
        day <- lift (py_int day) ;;
        month <- lift (py_int month) ;;
        year <- lift (py_int year) ;;
        when ((day <? 1) || (day >? 31))
             (append (msg_day ++ str_of_int day)) ;;;
        when ((month <? 1) || (month >? 12))
             (append (msg_month ++ str_of_int month)) ;;;
        when ((year <? 1900) || (year >? Datetime.year now))
             (append (msg_year ++ str_of_int year)) ;;;
        try_except
          (test_date <- lift (Datetime.new year month day) ;;
           when (Datetime.gt test_date now) (append msg_future))
          value_only
          (append (msg_day ++ birth_date)))
       value_or_index
       (append (msg_date_format ++ birth_date))).

Definition _validate_province (province : string) : result (list string) :=
  returning_errors
    (let province_upper := strip (upper province) in
     when (negb (str_in province_upper valid_provinces))
          (let matches :=
             filter (fun p => contains province_upper p
                              || contains p province_upper)
                    valid_provinces in
           when (match matches with [] => true | _ => false end)
                (append (msg_province ++ province)))).

Definition _validate_rt_rw_format (rt_rw : string) : bool :=
  re_match_rt_rw rt_rw.

Definition _cross_validate_nik_data (now : Datetime.t) (ktp_data : KTPData)
  : result (list string) :=
  returning_errors
    (try_except
       (let nik := nik ktp_data in
        let tgl_lahir_nik := slice nik 6 12 in
        day_nik <- lift (py_int (slice tgl_lahir_nik 0 2)) ;;
        month_nik <- lift (py_int (slice tgl_lahir_nik 2 4)) ;;
        year_nik <- lift (py_int (slice tgl_lahir_nik 4 6)) ;;
        let is_female_nik := day_nik >? 40 in
        let day_nik := if is_female_nik then day_nik - 40 else day_nik in
        match jenis_kelamin ktp_data with
        | Some g =>
            when (str_truthy (JenisKelamin_value g))
                 (let is_female_data :=
                    String.eqb (JenisKelamin_value g) "PEREMPUAN" in
                  when (negb (Bool.eqb is_female_nik is_female_data))
                       (append msg_cross_sex))
        | None => ret tt
        end ;;;
        when_str (tanggal_lahir ktp_data) (fun tanggal_lahir =>
          try_except
            (parts <- lift (unpack3 (split "-" tanggal_lahir)) ;;
             let '(day_data, month_data, year_data) := parts in
             day_data <- lift (py_int day_data) ;;
             month_data <- lift (py_int month_data) ;;
             year_data <- lift (py_int year_data) ;;
             let current_year := Datetime.year now in
             let year_nik_full :=
               if year_nik <=? (current_year - 1900) mod 100
               then 2000 + year_nik else 1900 + year_nik in
             when (negb (day_nik =? day_data)
                   || negb (month_nik =? month_data)
                   || negb (year_nik_full =? year_data))
                  (append msg_cross_date))
            value_or_index
            (ret tt)))
       value_or_index
       (ret tt)).

Definition validate_ktp_data (now : Datetime.t) (ktp_data : KTPData)
  : result (bool * list string) :=
  match
    (nik_errors <- lift (_validate_nik now (nik ktp_data)) ;;
     extend nik_errors ;;;
     when (negb (str_truthy (nama ktp_data))
           || (String.length (strip (nama ktp_data)) <? 2)%nat)
          (append msg_name) ;;;
     when_str (tanggal_lahir ktp_data) (fun tanggal_lahir =>
       date_errors <- lift (_validate_birth_date now tanggal_lahir) ;;
       extend date_errors) ;;;
     match jenis_kelamin ktp_data with
     | Some g =>
         when (str_truthy (JenisKelamin_value g)
               && negb (str_in (JenisKelamin_value g) valid_genders))
              (append (msg_gender ++ JenisKelamin_format g))
     | None => ret tt
     end ;;;
     when_str (provinsi ktp_data) (fun provinsi =>
       province_errors <- lift (_validate_province provinsi) ;;
       extend province_errors) ;;;
     when_str (agama ktp_data) (fun agama =>
       when (negb (str_in (upper agama) valid_religions))
            (append (msg_religion ++ agama))) ;;;
     match status_perkawinan ktp_data with
     | Some st =>
         when (str_truthy (StatusPerkawinan_value st)
               && negb (str_in (StatusPerkawinan_value st)
                               valid_marital_status))
              (append (msg_marital ++ StatusPerkawinan_format st))
     | None => ret tt
     end ;;;
     when_str (rt_rw ktp_data) (fun rt_rw =>
       when (negb (_validate_rt_rw_format rt_rw))
            (append (msg_rt_rw ++ rt_rw))) ;;;
     when (str_truthy (nik ktp_data) && opt_truthy (tanggal_lahir ktp_data))
          (cross_errors <- lift (_cross_validate_nik_data now ktp_data) ;;
           extend cross_errors))
      []
  with
  | (Normal _, errors) => Normal (Nat.eqb (List.length errors) 0, errors)
  | (Raise e, _) => Raise e
  end.

(** Python's [min(a, b)] and [max(a, b)]: the first argument unless the
    second is strictly smaller (larger). *)
Definition py_min (a b : Q) : Q := if Qle_bool a b then a else b.
Definition py_max (a b : Q) : Q := if Qle_bool b a then a else b.

Definition calculate_confidence_score
    (validation_result : KTPValidationResult) (image_quality_score : Q) : Q :=
  let base_score := confidence_score validation_result in
  let base_score :=
    match validation_errors validation_result with
    | [] => base_score
    | errs =>
        let error_penalty :=
          py_min (3 # 10) (inject_Z (Z.of_nat (List.length errs)) * (1 # 10)) in
        (base_score - error_penalty)%Q
    end in
  let final_score := (base_score * image_quality_score)%Q in
  py_max 0 (py_min 1 final_score).

(** The dictionary that [get_validation_summary] returns, a record of its
    four keys. *)
Record ValidationSummary : Type := mkValidationSummary
  { summary_is_valid : bool;
    error_count : nat;
    errors : list string;
    severity : string }.

Definition get_validation_summary (is_valid : bool) (errors : list string)
  : ValidationSummary :=
  mkValidationSummary is_valid (List.length errors) errors
    (if (List.length errors <=? 2)%nat then "low"
     else if (List.length errors <=? 5)%nat then "medium"
     else "high").

End KTPValidator.

(** ** The validation step of [verify_ktp] ([app/api/endpoints.py]) *)

Module Endpoints.

Import KTPValidator.

(** [image_quality_score = 0.8 if not image_quality_valid else 1.0] *)
Definition image_quality_score (image_quality_valid : bool) : Q :=
  if negb image_quality_valid then 8 # 10 else 1.

Definition set_validation_errors (r : KTPValidationResult) (l : list string)
  : KTPValidationResult :=
  mkKTPValidationResult (is_valid_ktp r) (confidence_score r)
                        (extracted_data r) l.

Definition set_is_valid_ktp (r : KTPValidationResult) (b : bool)
  : KTPValidationResult :=
  mkKTPValidationResult b (confidence_score r) (extracted_data r)
                        (validation_errors r).

Definition set_confidence_score (r : KTPValidationResult) (c : Q)
  : KTPValidationResult :=
  mkKTPValidationResult (is_valid_ktp r) c (extracted_data r)
                        (validation_errors r).

(** The score fusion of [verify_ktp]: what the endpoint does with the
    outcome [(data_valid, validation_errors)] of the validator, from
    "Update result dengan validation errors" to the assignment of the final
    confidence. *)
Definition fuse (analysis_result : KTPValidationResult)
    (outcome : bool * list string) (image_quality_score : Q)
  : KTPValidationResult :=
  let '(data_valid, validation_errors') := outcome in
  let analysis_result :=
    if negb data_valid then
      let analysis_result :=
        set_validation_errors analysis_result
          (validation_errors analysis_result ++ validation_errors')%list in
      if (3 <? List.length validation_errors')%nat
      then set_is_valid_ktp analysis_result false
      else analysis_result
    else analysis_result in
  let final_confidence :=
    calculate_confidence_score analysis_result image_quality_score in
  set_confidence_score analysis_result final_confidence.

(** Step 3 of [verify_ktp], "Validasi tambahan jika KTP valid". *)
Definition verify_ktp_validation (now : Datetime.t)
    (analysis_result : KTPValidationResult) (image_quality_score : Q)
  : result KTPValidationResult :=
  match is_valid_ktp analysis_result, extracted_data analysis_result with
  | true, Some data =>
      match validate_ktp_data now data with
      | Normal outcome =>
          Normal (fuse analysis_result outcome image_quality_score)
      | Raise e => Raise e
      end
  | _, _ => Normal analysis_result
  end.

End Endpoints.

Import KTPValidator Endpoints.

(** [try: body  except: return default], the handler that catches every
    exception. *)
Definition bare_except {A} (body : M A) (default : A) : A :=
  match eval body with
  | Normal a => a
  | Raise _ => default
  end.

(** [s.isdigit()], for [s] an ASCII text: not empty and digits [0-9] only
    (see [is_ascii]). *)
Definition isdigit (s : string) : bool :=
  str_truthy s && forallb is_digit (list_ascii_of_string s).

(** ** The validators of the model ([app/models/ktp_model.py]) *)

Module KTPModel.

(** [KTPData.validate_nik] *)
Definition validate_nik (v : string) : result string :=
  if negb (isdigit v) then Raise ValueError
  else if negb (String.length v =? 16)%nat then Raise ValueError
  else Normal v.

(** [KTPData._is_valid_date_format]; the conjunction is evaluated from the
    left and stops at its first false operand. *)
Definition _is_valid_date_format (date_str : string) : bool :=
  bare_except
    (let parts := split "-" date_str in
     if negb (List.length parts =? 3)%nat then ret false
     else
       parts <- lift (unpack3 parts) ;;
       let '(day, month, year) := parts in
       if (String.length day =? 2)%nat && (String.length month =? 2)%nat
          && (String.length year =? 4)%nat
          && isdigit day && isdigit month && isdigit year
       then
         d <- lift (py_int day) ;;
         if (1 <=? d) && (d <=? 31) then
           m <- lift (py_int month) ;;
           ret ((1 <=? m) && (m <=? 12))
         else ret false
       else ret false)
    false.

(** [KTPData.validate_tanggal_lahir] *)
Definition validate_tanggal_lahir (v : option string)
  : result (option string) :=
  if opt_truthy v
     && negb (match v with
              | Some s => _is_valid_date_format s
              | None => false
              end)
  then Raise ValueError
  else Normal v.

End KTPModel.

(** ** The date conversions of the stores *)

Module DatabaseService.

(** [DatabaseService._convert_date_format]
    ([app/services/database_service.py]): the arguments of the constructor
    are evaluated year, month, day. *)
Definition _convert_date_format (date_str : option string)
  : option Datetime.t :=
  match date_str with
  | Some s =>
      if negb (str_truthy s) then None
      else
        bare_except
          (parts <- lift (unpack3 (split "-" s)) ;;
           let '(day, month, year) := parts in
           y <- lift (py_int year) ;;
           m <- lift (py_int month) ;;
           d <- lift (py_int day) ;;
           t <- lift (Datetime.new y m d) ;;
           ret (Some t))
          None
  | None => None
  end.

End DatabaseService.

Module MySQLService.

(** [MySQLService._convert_date_format]
    ([app/services/mysql_service.py]) *)
Definition _convert_date_format (date_str : option string) : option string :=
  match date_str with
  | Some s =>
      if negb (str_truthy s) then None
      else
        bare_except
          (parts <- lift (unpack3 (split "-" s)) ;;
           let '(day, month, year) := parts in
           ret (Some (year ++ "-" ++ month ++ "-" ++ day)%string))
          None
  | None => None
  end.

End MySQLService.

(** ** Vocabulary of the specification *)

(** The outcome of the validator for a given defect list. *)
Definition outcome_of (errs : list string) : bool * list string :=
  (Nat.eqb (List.length errs) 0, errs).

(** Clamp to the unit interval. *)
Definition clamp01 (x : Q) : Q := py_max 0 (py_min 1 x).

(** An extractor result with a given confidence and defect list. *)
Definition scored (c : Q) (errs : list string) : KTPValidationResult :=
  mkKTPValidationResult true c None errs.

(** The confidence after the defect penalty, before the image factor. *)
Definition penalised_score (vr : KTPValidationResult) : Q :=
  match validation_errors vr with
  | [] => confidence_score vr
  | errs =>
      (confidence_score vr
       - py_min (3 # 10) (inject_Z (Z.of_nat (List.length errs)) * (1 # 10)))%Q
  end.

(** An identity number of exactly 16 ASCII digits. *)
Definition is_16_digits (s : string) : bool :=
  forallb is_digit (list_ascii_of_string s) && (String.length s =? 16)%nat.

(** Sixteen ASCII digits followed by one line feed. *)
Definition is_16_digits_nl (s : string) : bool :=
  is_16_digits (substring 0 16 s)
  && String.eqb (substring 16 (String.length s - 16) s) newline.

(** The structure of an identity number: the value of the two digits at
    positions [i] and [i + 1] (counted from 0). *)
Definition digit_at (s : string) (i : nat) : Z :=
  match String.get i s with
  | Some c => digit_val c
  | None => 0
  end.

Definition two_digits (s : string) (i : nat) : Z :=
  10 * digit_at s i + digit_at s (S i).

(** Digits 7-8, 9-10 and 11-12 of the identity number. *)
Definition embedded_raw_day (nik : string) : Z := two_digits nik 6.
Definition embedded_month (nik : string) : Z := two_digits nik 8.
Definition embedded_yy (nik : string) : Z := two_digits nik 10.

(** The embedded sex: female iff the raw day exceeds 40. *)
Definition embedded_female (nik : string) : bool := embedded_raw_day nik >? 40.

(** The calendar day, after the offset of a female bearer is taken off. *)
Definition embedded_day (nik : string) : Z :=
  if embedded_female nik then embedded_raw_day nik - 40
  else embedded_raw_day nik.

(** The pivot rule of the specification: a 2-digit year that is at most
    [(currentYear - 1900) mod 100] is read as [2000 + yy], any other as
    [1900 + yy]. *)
Definition spec_pivot_year (current_year yy : Z) : Z :=
  if yy <=? (current_year - 1900) mod 100 then 2000 + yy else 1900 + yy.

(** The embedded birth date check of the specification, with the pivot
    rule: day (after the offset is taken off) and month in range, a real
    calendar date, not after [now]. *)
Definition spec_date_ok (now : Datetime.t) (raw_day m yy : Z) : bool :=
  let d := if raw_day >? 40 then raw_day - 40 else raw_day in
  let y := spec_pivot_year (Datetime.year now) yy in
  (1 <=? d) && (d <=? 31) && (1 <=? m) && (m <=? 12)
  && (d <=? Datetime.days_in_month y m)
  && negb (Datetime.gt (Datetime.make y m d 0 0 0 0) now).

Definition spec_embedded_date_ok (now : Datetime.t) (nik : string) : bool :=
  spec_date_ok now (embedded_raw_day nik) (embedded_month nik)
               (embedded_yy nik).

(** Whether the declared sex is the female one. *)
Definition declared_female (g : JenisKelamin) : bool :=
  match g with PEREMPUAN => true | LAKI_LAKI => false end.

(** The kinds of defect that the properties tell apart: the four kinds that
    [_validate_nik] reports, the two of the cross-validation, and the
    defects of the other fields. *)
Inductive defect_kind : Type :=
  Shape | Region | EmbeddedDate | Sequence | CrossSex | CrossDate | Field.

Definition kind_of (e : string) : defect_kind :=
  if String.eqb e msg_nik_empty || String.eqb e msg_nik_shape then Shape
  else if prefix msg_region e then Region
  else if prefix msg_nik_date e then EmbeddedDate
  else if String.eqb e msg_sequence then Sequence
  else if String.eqb e msg_cross_sex then CrossSex
  else if String.eqb e msg_cross_date then CrossDate
  else Field.

Definition defect_kind_eqb (a b : defect_kind) : bool :=
  match a, b with
  | Shape, Shape | Region, Region | EmbeddedDate, EmbeddedDate
  | Sequence, Sequence | CrossSex, CrossSex | CrossDate, CrossDate
  | Field, Field => true
  | _, _ => false
  end.

(** How many defects of kind [k] a defect list holds. *)
Definition count_kind (k : defect_kind) (errs : list string) : nat :=
  List.length (filter (fun e => defect_kind_eqb (kind_of e) k) errs).

(** The declared birth date as day, month and year, when it has three
    parts between hyphens and each part is an integer literal. *)
Definition parse_declared (t : string) : option (Z * Z * Z) :=
  match unpack3 (split "-" t) with
  | Normal (a, b, c) =>
      match py_int a, py_int b, py_int c with
      | Normal d, Normal m, Normal y => Some (d, m, y)
      | _, _, _ => None
      end
  | Raise _ => None
  end.

(** The declared birth date parses into three integers of which one is no
    C [int]: the input on which [datetime(year, month, day)] overflows. *)
Definition date_overflows (t : string) : bool :=
  match parse_declared t with
  | Some (d, m, y) =>
      negb (Datetime.fits_c_int y && Datetime.fits_c_int m
            && Datetime.fits_c_int d)
  | None => false
  end.

(** The cross-validation defects in the vocabulary of the specification:
    the sex defect when the embedded sex differs from the declared one, the
    date defect when a component of the de-offset embedded date, with the
    pivot year, differs from the declared date. *)
Definition cross_sex_defects (raw_day : Z) (g : option JenisKelamin)
  : list string :=
  match g with
  | Some g =>
      if Bool.eqb (raw_day >? 40) (declared_female g) then []
      else [msg_cross_sex]
  | None => []
  end.

Definition cross_date_defects (now : Datetime.t) (raw_day m yy : Z)
    (t : option string) : list string :=
  match t with
  | Some t =>
      if str_truthy t then
        match parse_declared t with
        | Some (d', m', y') =>
            if ((if raw_day >? 40 then raw_day - 40 else raw_day) =? d')
               && (m =? m')
               && (spec_pivot_year (Datetime.year now) yy =? y')
            then [] else [msg_cross_date]
        | None => []
        end
      else []
  | None => []
  end.

Definition record_overflows (r : KTPData) : bool :=
  match tanggal_lahir r with
  | Some t => str_truthy t && date_overflows t
  | None => false
  end.

(** A statement that raises nothing and appends the defects [l]. *)
Definition emits (m : M unit) (l : list string) : Prop :=
  forall errors, m errors = (Normal tt, (errors ++ l)%list).

(** A statement that raises [e]. *)
Definition raises (m : M unit) (e : exn) : Prop :=
  forall errors, fst (m errors) = Raise e.

(** Every defect of the list is a defect of a field other than the identity
    number. *)
Definition all_field (l : list string) : Prop :=
  Forall (fun e => kind_of e = Field) l.

(** [a] occurs in [b]. *)
Definition Substring (a b : string) : Prop :=
  exists pre post, b = (pre ++ a ++ post)%string.

(** The fuzzy acceptance of the specification: the normalised province
    equals, is a substring of, or contains a listed name. *)
Definition province_accepted (u : string) : Prop :=
  exists m, In m valid_provinces /\ (u = m \/ Substring u m \/ Substring m u).

(** The clock and the records of the examples. *)
Definition noon_2024_06_15 : Datetime.t := Datetime.make 2024 6 15 12 0 0 0.

Definition record_of (nik nama : string) (tanggal_lahir : option string)
    (jenis_kelamin : option JenisKelamin) : KTPData :=
  mkKTPData nik nama None tanggal_lahir jenis_kelamin None None None None
            None None None None None (Some "WNI") None.

(** A well-shaped identity number of a male bearer born on 25-01-1990, a
    declared female sex and no declared birth date. *)
Definition record_sex_without_date : KTPData :=
  record_of "3201122501900001" "AN" None (Some PEREMPUAN).

(** The same bearer with the declared birth date. *)
Definition record_sex_with_date : KTPData :=
  record_of "3201122501900001" "AN" (Some "25-01-1990") (Some PEREMPUAN).



(** A declared birth date whose year is no C [int]. *)
Definition record_huge_year : KTPData :=
  record_of "3201120101900001" "AN" (Some "01-01-99999999999") None.

(** A raw embedded day of 34. *)
Definition record_day_34 : KTPData :=
  record_of "3201123401900010" "AN" None None.

(** The defects of the validator, rule by rule. *)
Definition nik_defects (now : Datetime.t) (r : KTPData) : list string :=
  match _validate_nik now (nik r) with
  | Normal l => l
  | Raise _ => []
  end.

Definition name_defects (r : KTPData) : list string :=
  if negb (str_truthy (nama r))
     || (String.length (strip (nama r)) <? 2)%nat
  then [msg_name] else [].

Definition birth_defects (now : Datetime.t) (r : KTPData)
  : result (list string) :=
  match tanggal_lahir r with
  | Some t => if str_truthy t then _validate_birth_date now t else Normal []
  | None => Normal []
  end.

Definition province_defects (r : KTPData) : list string :=
  match provinsi r with
  | Some p =>
      if str_truthy p then
        match _validate_province p with
        | Normal l => l
        | Raise _ => []
        end
      else []
  | None => []
  end.

Definition religion_defects (r : KTPData) : list string :=
  match agama r with
  | Some a =>
      if str_truthy a && negb (str_in (upper a) valid_religions)
      then [msg_religion ++ a] else []
  | None => []
  end.

Definition rt_rw_defects (r : KTPData) : list string :=
  match rt_rw r with
  | Some a =>
      if str_truthy a && negb (_validate_rt_rw_format a)
      then [msg_rt_rw ++ a] else []
  | None => []
  end.

Definition cross_defects (now : Datetime.t) (r : KTPData) : list string :=
  if str_truthy (nik r) && opt_truthy (tanggal_lahir r) then
    match _cross_validate_nik_data now r with
    | Normal l => l
    | Raise _ => []
    end
  else [].

(** The defect list in rule order, given the defects of the declared birth
    date. *)
Definition all_defects (now : Datetime.t) (r : KTPData)
    (date_errors : list string) : list string :=
  List.app (nik_defects now r)
    (List.app (name_defects r)
       (List.app date_errors
          (List.app (province_defects r)
             (List.app (religion_defects r)
                (List.app (rt_rw_defects r) (cross_defects now r)))))).

(** The number that a string of digits writes, after the digits read so
    far. *)
Fixpoint digits_value (s : string) (acc : Z) : Z :=
  match s with
  | EmptyString => acc
  | String c r => digits_value r (10 * acc + digit_val c)
  end.

(** A record that the constructor of the model has validated: the
    validators of [nik] and [tanggal_lahir] accept its fields. *)
Definition model_validated (r : KTPData) : Prop :=
  KTPModel.validate_nik (nik r) = Normal (nik r)
  /\ KTPModel.validate_tanggal_lahir (tanggal_lahir r)
     = Normal (tanggal_lahir r).

(** A record that carries an identity number and a declared birth date the
    model accepts. *)
Definition record_model_valid : KTPData :=
  record_of "3201122501900001" "AN" (Some "25-01-1990") (Some LAKI_LAKI).

(** A date of the calendar, as the constructor of [datetime] checks it. *)
Definition real_date (y m d : Z) : bool :=
  (1 <=? y) && (y <=? 9999) && (1 <=? m) && (m <=? 12)
  && (1 <=? d) && (d <=? Datetime.days_in_month y m).

(** The defects of a declared birth date [t] that parses into [d], [m],
    [y]: the three range defects, then the calendar or the future defect. *)
Definition declared_date_defects (now : Datetime.t) (t : string)
    (d m y : Z) : list string :=
  List.app (if (d <? 1) || (d >? 31) then [msg_day ++ str_of_int d] else [])
    (List.app
       (if (m <? 1) || (m >? 12) then [msg_month ++ str_of_int m] else [])
       (List.app
          (if (y <? 1900) || (y >? Datetime.year now)
           then [msg_year ++ str_of_int y] else [])
          (if real_date y m d
           then (if Datetime.gt (Datetime.make y m d 0 0 0 0) now
                 then [msg_future] else [])
           else [msg_day ++ t]))).

(** Two records agree on the seven fields that the validator reads beside
    the two enumerations: the identity number, the name, the declared birth
    date, the sex, the province, the religion and the RT/RW pair. *)
Definition same_validated_fields (r r' : KTPData) : Prop :=
  nik r = nik r' /\ nama r = nama r'
  /\ tanggal_lahir r = tanggal_lahir r'
  /\ jenis_kelamin r = jenis_kelamin r'
  /\ provinsi r = provinsi r' /\ agama r = agama r'
  /\ rt_rw r = rt_rw r'.

(** A record with every optional field filled in, and the same record with
    other values in the fields that the validator does not read. *)
Definition record_full : KTPData :=
  mkKTPData "3201122501900001" "BUDI" (Some "BOGOR") (Some "25-01-1990")
            (Some LAKI_LAKI) (Some "JL. MERDEKA 1") (Some "001/002")
            (Some "CIBINONG") (Some "CIBINONG") (Some "BOGOR")
            (Some "JAWA BARAT") (Some "ISLAM") (Some KAWIN)
            (Some "WIRASWASTA") (Some "WNI") (Some "SEUMUR HIDUP").

Definition record_full_other : KTPData :=
  mkKTPData "3201122501900001" "BUDI" None (Some "25-01-1990")
            (Some LAKI_LAKI) None (Some "001/002") None None None
            (Some "JAWA BARAT") (Some "ISLAM") (Some CERAI_MATI) None None
            None.

(** The string has no hyphen. *)
Definition no_hyphen (s : string) : bool :=
  forallb (fun c => negb (Ascii.eqb c "-")) (list_ascii_of_string s).

(** The acceptance criterion of the validator for a record whose identity
    number has 16 digits: the identity number decodes into non-zero region
    segments, an acceptable embedded birth date and a non-zero sequence
    number; the name has two characters or more once trimmed; a present
    declared birth date is the embedded one, and with it a present sex is
    the embedded one; a present province is accepted, a present religion is
    listed and a present RT/RW pair has the format. *)
Definition clean_record (now : Datetime.t) (r : KTPData) : Prop :=
  (two_digits (nik r) 0 <> 0 /\ two_digits (nik r) 2 <> 0
   /\ two_digits (nik r) 4 <> 0
   /\ spec_embedded_date_ok now (nik r) = true
   /\ (two_digits (nik r) 12 <> 0 \/ two_digits (nik r) 14 <> 0))
  /\ (2 <= String.length (strip (nama r)))%nat
  /\ (forall t, tanggal_lahir r = Some t -> str_truthy t = true ->
      parse_declared t
      = Some (embedded_day (nik r), embedded_month (nik r),
              spec_pivot_year (Datetime.year now) (embedded_yy (nik r)))
      /\ forall g, jenis_kelamin r = Some g ->
                   embedded_female (nik r) = declared_female g)
  /\ (forall p, provinsi r = Some p -> str_truthy p = true ->
      province_accepted (strip (upper p)))
  /\ (forall a, agama r = Some a -> str_truthy a = true ->
      In (upper a) valid_religions)
  /\ (forall a, rt_rw r = Some a -> str_truthy a = true ->
      _validate_rt_rw_format a = true).

(** * Properties *)

(** ** The score fusion *)

#[local] Open Scope Q_scope.

Lemma py_min_spec (a b : Q) :
  (a <= b /\ py_min a b = a) \/ (b < a /\ py_min a b = b).
Proof.
  unfold py_min. destruct (Qle_bool a b) eqn:E.
  - left. split; [now apply Qle_bool_iff | reflexivity].
  - right. split; [| reflexivity].
    apply Qnot_le_lt. intros H. apply Qle_bool_iff in H. congruence.
Qed.

Lemma py_max_spec (a b : Q) :
  (b <= a /\ py_max a b = a) \/ (a < b /\ py_max a b = b).
Proof.
  unfold py_max. destruct (Qle_bool b a) eqn:E.
  - left. split; [now apply Qle_bool_iff | reflexivity].
  - right. split; [| reflexivity].
    apply Qnot_le_lt. intros H. apply Qle_bool_iff in H. congruence.
Qed.

Lemma clamp01_bounds (x : Q) : 0 <= clamp01 x <= 1.
Proof.
  unfold clamp01.
  destruct (py_min_spec 1 x) as [[H1 ->] | [H1 ->]];
    destruct (py_max_spec 0 1) as [[H2 E2] | [H2 E2]];
    destruct (py_max_spec 0 x) as [[H3 E3] | [H3 E3]];
    try rewrite E2; try rewrite E3; lra.
Qed.

Lemma clamp01_mono (x y : Q) : x <= y -> clamp01 x <= clamp01 y.
Proof.
  intros Hxy. unfold clamp01.
  destruct (py_min_spec 1 x) as [[H1 ->] | [H1 ->]];
    destruct (py_min_spec 1 y) as [[H2 ->] | [H2 ->]];
    destruct (py_max_spec 0 1) as [[H3 E3] | [H3 E3]];
    destruct (py_max_spec 0 x) as [[H4 E4] | [H4 E4]];
    destruct (py_max_spec 0 y) as [[H5 E5] | [H5 E5]];
    try rewrite E3; try rewrite E4; try rewrite E5; lra.
Qed.

Lemma clamp01_compat (x y : Q) : x == y -> clamp01 x == clamp01 y.
Proof.
  intros E. apply Qle_antisym; apply clamp01_mono; lra.
Qed.

Lemma clamp01_nonpos (x : Q) : x <= 0 -> clamp01 x == 0.
Proof.
  intros H. unfold clamp01.
  destruct (py_min_spec 1 x) as [[H1 ->] | [H1 ->]];
    destruct (py_max_spec 0 1) as [[H2 E2] | [H2 E2]];
    destruct (py_max_spec 0 x) as [[H3 E3] | [H3 E3]];
    try rewrite E2; try rewrite E3; lra.
Qed.

Lemma clamp01_unit (x : Q) : 0 <= x <= 1 -> clamp01 x == x.
Proof.
  intros H. unfold clamp01.
  destruct (py_min_spec 1 x) as [[H1 ->] | [H1 ->]];
    destruct (py_max_spec 0 1) as [[H2 E2] | [H2 E2]];
    destruct (py_max_spec 0 x) as [[H3 E3] | [H3 E3]];
    try rewrite E2; try rewrite E3; lra.
Qed.

Lemma score_unfold (vr : KTPValidationResult) (q : Q) :
  calculate_confidence_score vr q = clamp01 (penalised_score vr * q).
Proof.
  unfold calculate_confidence_score, penalised_score, clamp01.
  destruct (validation_errors vr); reflexivity.
Qed.

(** The penalty grows with the number of defects. *)
Lemma penalised_score_antitone (vm vn : KTPValidationResult) :
  confidence_score vm = confidence_score vn ->
  (List.length (validation_errors vm) <= List.length (validation_errors vn))%nat ->
  penalised_score vn <= penalised_score vm.
Proof.
  unfold penalised_score. intros Ec Hlen. rewrite Ec.
  destruct (validation_errors vm) as [|em lm] eqn:Em;
    destruct (validation_errors vn) as [|en ln] eqn:En.
  - lra.
  - set (k := inject_Z (Z.of_nat (List.length (en :: ln)))).
    assert (Hk : 0 <= k).
    { unfold k. replace 0 with (inject_Z 0) by reflexivity.
      rewrite <- Zle_Qle. lia. }
    destruct (py_min_spec (3 # 10) (k * (1 # 10))) as [[H ->] | [H ->]]; lra.
  - simpl in Hlen. lia.
  - set (km := inject_Z (Z.of_nat (List.length (em :: lm)))).
    set (kn := inject_Z (Z.of_nat (List.length (en :: ln)))).
    assert (Hk : km <= kn).
    { unfold km, kn. rewrite <- Zle_Qle. lia. }
    destruct (py_min_spec (3 # 10) (km * (1 # 10))) as [[H1 ->] | [H1 ->]];
      destruct (py_min_spec (3 # 10) (kn * (1 # 10))) as [[H2 ->] | [H2 ->]];
      lra.
Qed.

Lemma fuse_confidence (ar : KTPValidationResult) (out : bool * list string)
    (q : Q) :
  0 <= confidence_score (fuse ar out q) <= 1.
Proof.
  destruct out as [v errs]. unfold fuse.
  destruct (negb v); [destruct (3 <? List.length errs)%nat |];
    cbn [confidence_score set_confidence_score];
    rewrite score_unfold; apply clamp01_bounds.
Qed.

(** C1. The validity override of the fusion step: with more than three
    defects reported by the validator the final validity is false, whatever
    the upstream flag and the scores; with at most three defects the final
    validity is the upstream flag. *)
Theorem fuse_validity_override (ar : KTPValidationResult)
    (errs : list string) (q : Q) :
  is_valid_ktp (fuse ar (outcome_of errs) q)
  = if (3 <? List.length errs)%nat then false else is_valid_ktp ar.
Proof.
  unfold fuse, outcome_of.
  destruct errs as [|e1 [|e2 [|e3 [|e4 l]]]]; reflexivity.
Qed.

(** C8. The final confidence lies in the unit interval for every
    confidence, every defect list and every image-quality score, in range or
    not: for [calculate_confidence_score] and for the confidence that the
    fusion step stores. *)
Theorem calculate_confidence_score_bounds (vr : KTPValidationResult)
    (errs : list string) (q : Q) :
  0 <= calculate_confidence_score vr q <= 1
  /\ 0 <= confidence_score (fuse vr (outcome_of errs) q) <= 1.
Proof.
  split.
  - rewrite score_unfold. apply clamp01_bounds.
  - apply fuse_confidence.
Qed.

(** C9, counterexample. With a negative image-quality score the score is not
    antitone in the defect count: confidence 1/10 and image quality -1 give
    0 without defects and 2/10 with three. *)
Lemma calculate_confidence_score_not_antitone :
  ~ (calculate_confidence_score (scored (1 # 10) ["a"; "b"; "c"]) (-1 # 1)
     <= calculate_confidence_score (scored (1 # 10) []) (-1 # 1)).
Proof.
  vm_compute. intros H. apply H. reflexivity.
Qed.

(** C9, amended. For a fixed confidence and a fixed image-quality score that
    is not negative, the final confidence does not increase when the defect
    count increases. *)
Theorem calculate_confidence_score_antitone (vm vn : KTPValidationResult)
    (q : Q) :
  0 <= q ->
  confidence_score vm = confidence_score vn ->
  (List.length (validation_errors vm) <= List.length (validation_errors vn))%nat ->
  calculate_confidence_score vn q <= calculate_confidence_score vm q.
Proof.
  intros Hq Ec Hlen. rewrite !score_unfold. apply clamp01_mono.
  apply Qmult_le_compat_r; [| exact Hq].
  now apply penalised_score_antitone.
Qed.

Lemma calculate_confidence_score_antitone_witness :
  0 <= (8 # 10)
  /\ confidence_score (scored (9 # 10) ["a"]) = confidence_score (scored (9 # 10) ["a"; "b"; "c"; "d"; "e"])
  /\ calculate_confidence_score (scored (9 # 10) ["a"; "b"; "c"; "d"; "e"]) (8 # 10)
     <= calculate_confidence_score (scored (9 # 10) ["a"]) (8 # 10).
Proof.
  split; [discriminate |]. split; [reflexivity |].
  apply calculate_confidence_score_antitone;
    [discriminate | reflexivity | simpl; lia].
Defined.

(** C3, counterexample. The confidence is not clamped on input: 3/2 with one
    defect and image quality 1 scores 1, while 1 scores 9/10. *)
Lemma calculate_confidence_score_no_input_clamp :
  ~ (calculate_confidence_score (scored (3 # 2) ["e"]) 1
     == calculate_confidence_score (scored 1 ["e"]) 1).
Proof.
  vm_compute. discriminate.
Qed.

(** C3, amended. Only the final product is clamped. For an image-quality
    score that is not negative, replacing the confidence by its clamp to the
    unit interval never raises the final confidence, and leaves it unchanged
    when the confidence is at most 1 (below 0 both scores are 0). *)
Theorem calculate_confidence_score_clamped_input (c : Q)
    (errs : list string) (q : Q) :
  0 <= q ->
  calculate_confidence_score (scored (clamp01 c) errs) q
  <= calculate_confidence_score (scored c errs) q
  /\ (c <= 1 ->
      calculate_confidence_score (scored c errs) q
      == calculate_confidence_score (scored (clamp01 c) errs) q).
Proof.
  intros Hq. rewrite !score_unfold.
  unfold penalised_score, scored; cbn [validation_errors confidence_score].
  set (pen := py_min (3 # 10)
                (inject_Z (Z.of_nat (List.length errs)) * (1 # 10))).
  assert (Hpen : 0 <= pen).
  { unfold pen.
    assert (Hk : 0 <= inject_Z (Z.of_nat (List.length errs))).
    { replace 0 with (inject_Z 0) by reflexivity. rewrite <- Zle_Qle. lia. }
    destruct (py_min_spec (3 # 10)
                (inject_Z (Z.of_nat (List.length errs)) * (1 # 10)))
      as [[H ->] | [H ->]]; lra. }
  assert (Hc := clamp01_bounds c).
  assert (Hle : clamp01 c <= c \/ c < 0).
  { destruct (Qlt_le_dec c 0) as [Hn | Hp]; [now right | left].
    destruct (Qlt_le_dec 1 c) as [H1 | H1]; [lra |].
    rewrite (clamp01_unit c); lra. }
  split.
  - destruct Hle as [Hle | Hneg].
    + apply clamp01_mono.
      destruct errs; apply Qmult_le_compat_r; try exact Hq; lra.
    + assert (E0 : clamp01 c == 0) by (apply clamp01_nonpos; lra).
      destruct errs as [|e l].
      * rewrite (clamp01_nonpos (clamp01 c * q)).
        -- apply clamp01_bounds.
        -- rewrite E0. lra.
      * fold pen. rewrite (clamp01_nonpos ((clamp01 c - pen) * q)).
        -- apply clamp01_bounds.
        -- rewrite E0.
           setoid_replace 0 with (0 * q) at 2 by ring.
           apply Qmult_le_compat_r; [lra | exact Hq].
  - intros H1. destruct (Qlt_le_dec c 0) as [Hn | Hp].
    + assert (E0 : clamp01 c == 0) by (apply clamp01_nonpos; lra).
      destruct errs as [|e l].
      * rewrite (clamp01_nonpos (c * q)), (clamp01_nonpos (clamp01 c * q)).
        -- reflexivity.
        -- rewrite E0. lra.
        -- setoid_replace 0 with (0 * q) by ring.
           apply Qmult_le_compat_r; [lra | exact Hq].
      * fold pen.
        rewrite (clamp01_nonpos ((c - pen) * q)),
                (clamp01_nonpos ((clamp01 c - pen) * q)).
        -- reflexivity.
        -- rewrite E0. setoid_replace 0 with (0 * q) at 2 by ring.
           apply Qmult_le_compat_r; [lra | exact Hq].
        -- setoid_replace 0 with (0 * q) by ring.
           apply Qmult_le_compat_r; [lra | exact Hq].
    + assert (E : clamp01 c == c) by (apply clamp01_unit; lra).
      apply clamp01_compat. destruct errs; [| fold pen]; rewrite E; reflexivity.
Qed.

Lemma calculate_confidence_score_clamped_input_witness :
  0 <= 1
  /\ calculate_confidence_score (scored (clamp01 (3 # 2)) ["e"]) 1
     <= calculate_confidence_score (scored (3 # 2) ["e"]) 1.
Proof.
  split; [discriminate |].
  apply (calculate_confidence_score_clamped_input (3 # 2) ["e"] 1).
  discriminate.
Defined.

Close Scope Q_scope.

(** ** Characters and integer literals *)

Lemma is_digit_cases (c : ascii) :
  is_digit c = true ->
  c = "0"%char \/ c = "1"%char \/ c = "2"%char \/ c = "3"%char
  \/ c = "4"%char \/ c = "5"%char \/ c = "6"%char \/ c = "7"%char
  \/ c = "8"%char \/ c = "9"%char.
Proof.
  destruct c as [[] [] [] [] [] [] [] []]; vm_compute; intros H;
    try discriminate H;
    repeat (try (left; reflexivity); right); reflexivity.
Qed.

Ltac digit_cases c H :=
  destruct (is_digit_cases c H)
    as [-> | [-> | [-> | [-> | [-> | [-> | [-> | [-> | [-> | ->]]]]]]]]].

Lemma digit_val_bounds (c : ascii) : is_digit c = true -> 0 <= digit_val c <= 9.
Proof.
  intros H. digit_cases c H; vm_compute; split; discriminate.
Qed.

(** [int()] of a two-digit literal. *)
Lemma py_int_two_digits (c1 c2 : ascii) :
  is_digit c1 = true -> is_digit c2 = true ->
  py_int (String c1 (String c2 EmptyString))
  = Normal (10 * digit_val c1 + digit_val c2).
Proof.
  intros H1 H2. digit_cases c1 H1; digit_cases c2 H2; reflexivity.
Qed.

(** ** The embedded birth date *)

Lemma leb_true (a b : Z) : a <= b -> (a <=? b) = true.
Proof. apply Z.leb_le. Qed.

Lemma leb_false (a b : Z) : b < a -> (a <=? b) = false.
Proof. apply Z.leb_gt. Qed.

Lemma ltb_true (a b : Z) : a < b -> (a <? b) = true.
Proof. apply Z.ltb_lt. Qed.

Lemma ltb_false (a b : Z) : b <= a -> (a <? b) = false.
Proof. apply Z.ltb_ge. Qed.

Lemma gtb_true (a b : Z) : b < a -> (a >? b) = true.
Proof. intros H. rewrite Z.gtb_ltb. now apply Z.ltb_lt. Qed.

Lemma gtb_false (a b : Z) : a <= b -> (a >? b) = false.
Proof. intros H. rewrite Z.gtb_ltb. now apply Z.ltb_ge. Qed.

(** Settle the comparisons of the goal that the context decides. *)
Ltac zdecide :=
  repeat match goal with
    | |- context [?a <=? ?b] =>
        first [ rewrite (leb_true a b) by lia
              | rewrite (leb_false a b) by lia ]
    | |- context [?a <? ?b] =>
        first [ rewrite (ltb_true a b) by lia
              | rewrite (ltb_false a b) by lia ]
    | |- context [?a >? ?b] =>
        first [ rewrite (gtb_true a b) by lia
              | rewrite (gtb_false a b) by lia ]
    end.

(** The constructor on a day, month and year that fit the range checks. *)
Lemma datetime_new_checked (y m d : Z) :
  1 <= d <= 31 -> 1 <= m <= 12 -> 1 <= y <= 9999 ->
  Datetime.new y m d
  = if d <=? Datetime.days_in_month y m
    then Normal (Datetime.make y m d 0 0 0 0)
    else Raise ValueError.
Proof.
  intros Hd Hm Hy. unfold Datetime.new, Datetime.fits_c_int.
  zdecide. reflexivity.
Qed.

Lemma validate_birth_date_in_nik_numbers (now : Datetime.t)
    (c1 c2 c3 c4 c5 c6 : ascii) :
  is_digit c1 = true -> is_digit c2 = true -> is_digit c3 = true ->
  is_digit c4 = true -> is_digit c5 = true -> is_digit c6 = true ->
  _validate_birth_date_in_nik now
    (String c1 (String c2 (String c3 (String c4 (String c5 (String c6 ""))))))
  = Normal (spec_date_ok now (10 * digit_val c1 + digit_val c2)
                         (10 * digit_val c3 + digit_val c4)
                         (10 * digit_val c5 + digit_val c6)).
Proof.
  intros H1 H2 H3 H4 H5 H6.
  unfold _validate_birth_date_in_nik, slice. cbn [substring Nat.sub].
  rewrite !py_int_two_digits by assumption.
  apply digit_val_bounds in H1, H2, H3, H4, H5, H6.
  set (d0 := 10 * digit_val c1 + digit_val c2).
  set (m := 10 * digit_val c3 + digit_val c4).
  set (yy := 10 * digit_val c5 + digit_val c6).
  assert (Hd : 0 <= d0 <= 99) by (unfold d0; lia).
  assert (Hm : 0 <= m <= 99) by (unfold m; lia).
  assert (Hy : 0 <= yy <= 99) by (unfold yy; lia).
  clearbody d0 m yy. clear H1 H2 H3 H4 H5 H6.
  unfold spec_date_ok, spec_pivot_year.
  cbv [eval try_except bind lift ret].
  set (d := if d0 >? 40 then d0 - 40 else d0).
  set (y := if yy <=? (Datetime.year now - 1900) mod 100
            then 2000 + yy else 1900 + yy).
  assert (Hd' : 0 <= d <= 59) by (unfold d; destruct (d0 >? 40) eqn:E; lia).
  assert (Hy' : 1900 <= y <= 2099)
    by (unfold y;
        destruct (yy <=? (Datetime.year now - 1900) mod 100); lia).
  clearbody d y.
  destruct (Z_lt_le_dec d 1) as [Hlo | Hlo]; [zdecide; reflexivity |].
  destruct (Z_lt_le_dec 31 d) as [Hhi | Hhi]; [zdecide; reflexivity |].
  destruct (Z_lt_le_dec m 1) as [Hmlo | Hmlo]; [zdecide; reflexivity |].
  destruct (Z_lt_le_dec 12 m) as [Hmhi | Hmhi]; [zdecide; reflexivity |].
  rewrite datetime_new_checked by lia.
  zdecide. cbn [orb andb].
  destruct (d <=? Datetime.days_in_month y m); [| reflexivity].
  destruct (Datetime.gt _ now); reflexivity.
Qed.

(** Name the sixteen digits of an identity number. *)
Ltac destruct_nik nik H :=
  let Hd := fresh "Hd" in
  let Hl := fresh "Hl" in
  unfold is_16_digits in H; apply andb_prop in H; destruct H as [Hd Hl];
  do 16 (destruct nik as [| ?c nik]; [simpl in Hl; discriminate Hl |]);
  destruct nik; [| simpl in Hl; discriminate Hl]; clear Hl;
  cbn [list_ascii_of_string forallb] in Hd;
  repeat (apply andb_prop in Hd; let Hc := fresh "Hc" in destruct Hd as [Hc Hd]);
  clear Hd.

Lemma validate_birth_date_in_nik_16 (now : Datetime.t) (nik : string) :
  is_16_digits nik = true ->
  _validate_birth_date_in_nik now (slice nik 6 12)
  = Normal (spec_embedded_date_ok now nik).
Proof.
  intros H. destruct_nik nik H.
  unfold slice. cbn [substring Nat.sub].
  rewrite validate_birth_date_in_nik_numbers by assumption.
  reflexivity.
Qed.

Lemma re_match_nik_16 (nik : string) :
  is_16_digits nik = true -> re_match_nik nik = true.
Proof.
  intros H. destruct_nik nik H.
  unfold re_match_nik. cbn [match_digits].
  repeat match goal with Hc : is_digit _ = true |- _ => rewrite Hc; clear Hc end.
  reflexivity.
Qed.

(** ** The shape test *)

Lemma substring_all (s : string) : substring 0 (String.length s) s = s.
Proof.
  induction s as [| c s IH]; [reflexivity |]. simpl. now rewrite IH.
Qed.

Lemma substring_split (n : nat) (s : string) :
  s = (substring 0 n s ++ substring n (String.length s - n) s)%string.
Proof.
  revert s. induction n as [| n IH]; intros s.
  - rewrite Nat.sub_0_r, substring_all. destruct s; reflexivity.
  - destruct s as [| c s]; [reflexivity |].
    cbn [substring String.length Nat.sub String.append]. now rewrite <- IH.
Qed.

Lemma match_digits_spec (n : nat) (s : string) :
  match_digits n s
  = if forallb is_digit (list_ascii_of_string (substring 0 n s))
       && (String.length (substring 0 n s) =? n)%nat
    then Some (substring n (String.length s - n) s)
    else None.
Proof.
  revert s. induction n as [| n IH]; intros s.
  - rewrite Nat.sub_0_r, substring_all. destruct s; reflexivity.
  - destruct s as [| c s]; [reflexivity |].
    cbn [match_digits substring String.length Nat.sub list_ascii_of_string
         forallb Nat.eqb].
    destruct (is_digit c); [apply IH | reflexivity].
Qed.

Lemma is_16_digits_whole (nik : string) :
  is_16_digits nik = true ->
  substring 0 16 nik = nik
  /\ substring 16 (String.length nik - 16) nik = EmptyString.
Proof.
  intros H. destruct_nik nik H. split; reflexivity.
Qed.

(** The shape test of the code accepts sixteen digits, and sixteen digits
    followed by one line feed. *)
Lemma re_match_nik_spec (nik : string) :
  re_match_nik nik = is_16_digits nik || is_16_digits_nl nik.
Proof.
  unfold re_match_nik, is_16_digits_nl. rewrite match_digits_spec.
  fold (is_16_digits (substring 0 16 nik)).
  assert (E := substring_split 16 nik).
  set (hd := substring 0 16 nik) in *.
  set (rest := substring 16 (String.length nik - 16) nik) in *.
  destruct (is_16_digits hd) eqn:Hh.
  - unfold at_end. destruct (String.eqb_spec rest "") as [Hr | Hr].
    + assert (En : nik = hd).
      { rewrite E, Hr. clear. induction hd; simpl; congruence. }
      rewrite En, Hh. reflexivity.
    + destruct (is_16_digits nik) eqn:Hn; [| reflexivity].
      apply is_16_digits_whole in Hn. destruct Hn as [_ Hn].
      fold rest in Hn. contradiction.
  - destruct (is_16_digits nik) eqn:Hn; [| reflexivity].
    destruct (is_16_digits_whole nik Hn) as [Hw _]. fold hd in Hw.
    congruence.
Qed.

Lemma is_16_digits_truthy (nik : string) :
  is_16_digits nik = true -> str_truthy nik = true.
Proof.
  intros H. destruct_nik nik H. reflexivity.
Qed.

(** The defects of the three sub-rules of a well-shaped identity number. *)
Lemma validate_nik_16 (now : Datetime.t) (nik : string) :
  is_16_digits nik = true ->
  _validate_nik now nik
  = Normal
      (List.app
         (if _validate_region_code (slice nik 0 6) then []
          else [msg_region ++ slice nik 0 6])
         (List.app
            (if spec_embedded_date_ok now nik then []
             else [msg_nik_date ++ slice nik 6 12])
            (if String.eqb (slice nik 12 16) "0000" then [msg_sequence]
             else []))).
Proof.
  intros H. unfold _validate_nik.
  rewrite (is_16_digits_truthy nik H), (re_match_nik_16 nik H).
  cbn [negb]. cbv [returning_errors bind lift when append ret].
  rewrite (validate_birth_date_in_nik_16 now nik H).
  destruct (_validate_region_code (slice nik 0 6));
    destruct (spec_embedded_date_ok now nik);
    destruct (String.eqb (slice nik 12 16) "0000"); reflexivity.
Qed.

(** A present identity number that fails the shape test yields the shape
    defect alone. *)
Lemma validate_nik_bad_shape (now : Datetime.t) (nik : string) :
  str_truthy nik = true -> re_match_nik nik = false ->
  _validate_nik now nik = Normal [msg_nik_shape].
Proof.
  intros Ht Hm. unfold _validate_nik. rewrite Ht, Hm. reflexivity.
Qed.

Lemma validate_nik_empty (now : Datetime.t) (nik : string) :
  str_truthy nik = false ->
  _validate_nik now nik = Normal [msg_nik_empty].
Proof.
  intros Ht. unfold _validate_nik. rewrite Ht. reflexivity.
Qed.

(** A line feed after the sixteen digits changes nothing for the
    sub-rules. *)
Lemma validate_nik_16_nl (now : Datetime.t) (nik : string) :
  is_16_digits_nl nik = true ->
  _validate_nik now nik = _validate_nik now (substring 0 16 nik).
Proof.
  intros H. apply andb_prop in H. destruct H as [Hh Hr].
  apply String.eqb_eq in Hr.
  pose proof (substring_split 16 nik) as E. rewrite Hr in E.
  remember (substring 0 16 nik) as d eqn:Ed. rewrite E. clear E Ed Hr.
  destruct_nik d Hh.
  unfold _validate_nik, re_match_nik, slice.
  cbn [String.append match_digits substring Nat.sub].
  repeat match goal with Hc : is_digit _ = true |- _ => rewrite Hc; clear Hc end.
  reflexivity.
Qed.

(** [_validate_nik] returns for every string. *)
Lemma validate_nik_total (now : Datetime.t) (nik : string) :
  exists errs, _validate_nik now nik = Normal errs.
Proof.
  destruct (str_truthy nik) eqn:Ht;
    [| eexists; now apply validate_nik_empty].
  destruct (re_match_nik nik) eqn:Hm;
    [| eexists; now apply validate_nik_bad_shape].
  rewrite re_match_nik_spec in Hm. apply orb_prop in Hm.
  destruct Hm as [H16 | Hnl].
  - eexists. now apply validate_nik_16.
  - rewrite (validate_nik_16_nl now nik Hnl).
    apply andb_prop in Hnl. destruct Hnl as [Hh _].
    eexists. now apply validate_nik_16.
Qed.

(** ** The declared birth date *)

Lemma digits_acc_raise (s : string) (acc : Z) (b : bool) (e : exn) :
  digits_acc s acc b = Raise e -> e = ValueError.
Proof.
  revert acc b. induction s as [| c s IH]; intros acc b; simpl.
  - destruct b; congruence.
  - destruct (is_digit c); [apply IH |].
    destruct (Ascii.eqb c "_"); [| congruence].
    destruct b; [apply IH | congruence].
Qed.

(** [int()] raises nothing but [ValueError]. *)
Lemma py_int_raise (s : string) (e : exn) :
  py_int s = Raise e -> e = ValueError.
Proof.
  unfold py_int.
  destruct (strip_by is_int_space s) as [| c body];
    [simpl; congruence |].
  destruct c as [[] [] [] [] [] [] [] []]; cbv iota;
    try apply digits_acc_raise.
  destruct (digits_acc body 0 false) eqn:E; [congruence |].
  intros H. injection H as <-. now apply digits_acc_raise in E.
Qed.

Lemma unpack3_raise (l : list string) (e : exn) :
  unpack3 l = Raise e -> e = ValueError.
Proof.
  destruct l as [| a [| b [| c [| d l]]]]; simpl; congruence.
Qed.

Lemma kind_of_field_msg (e : string) :
  (exists x, e = msg_day ++ x) \/ (exists x, e = msg_month ++ x)
  \/ (exists x, e = msg_year ++ x) \/ e = msg_future
  \/ (exists x, e = msg_date_format ++ x) \/ e = msg_name
  \/ (exists x, e = msg_gender ++ x) \/ (exists x, e = msg_province ++ x)
  \/ (exists x, e = msg_religion ++ x) \/ (exists x, e = msg_marital ++ x)
  \/ (exists x, e = msg_rt_rw ++ x) ->
  kind_of e = Field.
Proof.
  intros H.
  repeat match type of H with
         | _ \/ _ => destruct H as [H | H]
         | exists _, _ => destruct H as [x H]
         end;
    subst e; reflexivity.
Qed.

Ltac field_msgs :=
  repeat (apply Forall_cons;
          [apply kind_of_field_msg;
           first [ left; eexists; reflexivity
                 | right; left; eexists; reflexivity
                 | right; right; left; eexists; reflexivity
                 | right; right; right; left; reflexivity
                 | right; right; right; right; left; eexists; reflexivity ]
          |]);
  apply Forall_nil.

(** [_validate_birth_date] raises on the overflowing dates, and on them
    alone; otherwise it returns defects of the declared date. *)
Lemma validate_birth_date_outcome (now : Datetime.t) (t : string) :
  if date_overflows t
  then _validate_birth_date now t = Raise OverflowError
  else exists errs,
      _validate_birth_date now t = Normal errs
      /\ Forall (fun e => kind_of e = Field) errs.
Proof.
  unfold date_overflows, parse_declared, _validate_birth_date.
  cbv [returning_errors try_except bind lift].
  destruct (unpack3 (split "-" t)) as [[[a b] c] | e] eqn:Eu.
  2:{ apply unpack3_raise in Eu. subst e. cbv beta iota.
      eexists. split; [reflexivity | field_msgs]. }
  destruct (py_int a) as [d | e] eqn:Ea.
  2:{ apply py_int_raise in Ea. subst e. cbv beta iota.
      eexists. split; [reflexivity | field_msgs]. }
  destruct (py_int b) as [m | e] eqn:Eb.
  2:{ apply py_int_raise in Eb. subst e. cbv beta iota.
      eexists. split; [reflexivity | field_msgs]. }
  destruct (py_int c) as [y | e] eqn:Ec.
  2:{ apply py_int_raise in Ec. subst e. cbv beta iota.
      eexists. split; [reflexivity | field_msgs]. }
  cbv [when append ret].
  unfold Datetime.new.
  destruct (Datetime.fits_c_int y && Datetime.fits_c_int m
            && Datetime.fits_c_int d); cbn [negb]; cbv beta iota.
  - destruct ((d <? 1) || (d >? 31)); destruct ((m <? 1) || (m >? 12));
      destruct ((y <? 1900) || (y >? Datetime.year now));
      cbn [List.app];
      (destruct ((1 <=? y) && (y <=? 9999) && (1 <=? m) && (m <=? 12)
                 && (1 <=? d) && (d <=? Datetime.days_in_month y m));
       [destruct (Datetime.gt _ now) |]);
      cbn [value_only List.app];
      (eexists; split; [reflexivity | field_msgs]).
  - destruct ((d <? 1) || (d >? 31)); destruct ((m <? 1) || (m >? 12));
      destruct ((y <? 1900) || (y >? Datetime.year now)); reflexivity.
Qed.

(** ** The cross-validation *)

Lemma parse_declared_cases (t : string) :
  (exists a b c d m y,
      unpack3 (split "-" t) = Normal (a, b, c)
      /\ py_int a = Normal d /\ py_int b = Normal m /\ py_int c = Normal y
      /\ parse_declared t = Some (d, m, y))
  \/ (parse_declared t = None
      /\ (unpack3 (split "-" t) = Raise ValueError
          \/ exists a b c,
            unpack3 (split "-" t) = Normal (a, b, c)
            /\ (py_int a = Raise ValueError
                \/ (exists d, py_int a = Normal d)
                   /\ (py_int b = Raise ValueError
                       \/ (exists m, py_int b = Normal m)
                          /\ py_int c = Raise ValueError)))).
Proof.
  unfold parse_declared.
  destruct (unpack3 (split "-" t)) as [[[a b] c] | e] eqn:Eu.
  2:{ pose proof (unpack3_raise _ _ Eu); subst e. right. split; [reflexivity |].
      now left. }
  destruct (py_int a) as [d | e] eqn:Ea.
  2:{ pose proof (py_int_raise _ _ Ea); subst e. right. split; [reflexivity |].
      right. exists a, b, c. split; [reflexivity |]. now left. }
  destruct (py_int b) as [m | e] eqn:Eb.
  2:{ pose proof (py_int_raise _ _ Eb); subst e. right. split; [reflexivity |].
      right. exists a, b, c. split; [reflexivity |]. right.
      split; [now exists d |]. now left. }
  destruct (py_int c) as [y | e] eqn:Ec.
  2:{ pose proof (py_int_raise _ _ Ec); subst e. right. split; [reflexivity |].
      right. exists a, b, c. split; [reflexivity |]. right.
      split; [now exists d |]. right. split; [now exists m | assumption]. }
  left. exists a, b, c, d, m, y. repeat split; assumption.
Qed.

(** The cross-validation on an identity number whose digits 7-12 are three
    integer literals. *)
Lemma cross_validate_numbers (now : Datetime.t) (r : KTPData) (d0 m0 y0 : Z) :
  py_int (slice (slice (nik r) 6 12) 0 2) = Normal d0 ->
  py_int (slice (slice (nik r) 6 12) 2 4) = Normal m0 ->
  py_int (slice (slice (nik r) 6 12) 4 6) = Normal y0 ->
  _cross_validate_nik_data now r
  = Normal (List.app (cross_sex_defects d0 (jenis_kelamin r))
                     (cross_date_defects now d0 m0 y0 (tanggal_lahir r))).
Proof.
  intros Ed Em Ey. unfold _cross_validate_nik_data.
  cbv [returning_errors try_except bind lift]. rewrite Ed, Em, Ey.
  unfold cross_sex_defects, cross_date_defects, spec_pivot_year, when_str.
  set (d := if d0 >? 40 then d0 - 40 else d0).
  set (fy := if y0 <=? (Datetime.year now - 1900) mod 100
             then 2000 + y0 else 1900 + y0).
  assert (Hsex : forall g,
             negb (Bool.eqb (d0 >? 40)
                            (String.eqb (JenisKelamin_value g) "PEREMPUAN"))
             = negb (Bool.eqb (d0 >? 40) (declared_female g)))
    by (intros []; reflexivity).
  destruct (jenis_kelamin r) as [g |];
    [rewrite Hsex;
     replace (str_truthy (JenisKelamin_value g)) with true
       by (destruct g; reflexivity);
     destruct (Bool.eqb (d0 >? 40) (declared_female g)) |];
    cbv [when append ret negb List.app];
    (destruct (tanggal_lahir r) as [t |]; [| reflexivity];
     destruct (str_truthy t); [| reflexivity];
     destruct (parse_declared_cases t)
       as [(a & b & c & dd & mm & yy & Eu & Ea & Eb & Ec & Ep)
          | (Ep & [Eu | (a & b & c & Eu
                         & [Ea | ((dd & Ea)
                                  & [Eb | ((mm & Eb) & Ec)])])])];
     rewrite Ep, Eu; cbv beta iota;
     rewrite ?Ea, ?Eb, ?Ec; cbv beta iota; try reflexivity;
     destruct (d =? dd); destruct (m0 =? mm); destruct (fy =? yy);
     reflexivity).
Qed.

Lemma cross_validate_unparsed (now : Datetime.t) (r : KTPData) :
  py_int (slice (slice (nik r) 6 12) 0 2) = Raise ValueError
  \/ (exists d0, py_int (slice (slice (nik r) 6 12) 0 2) = Normal d0)
     /\ (py_int (slice (slice (nik r) 6 12) 2 4) = Raise ValueError
         \/ (exists m0, py_int (slice (slice (nik r) 6 12) 2 4) = Normal m0)
            /\ py_int (slice (slice (nik r) 6 12) 4 6) = Raise ValueError) ->
  _cross_validate_nik_data now r = Normal [].
Proof.
  intros H. unfold _cross_validate_nik_data.
  cbv [returning_errors try_except bind lift].
  destruct H as [Ed | [[d0 Ed] [Em | [[m0 Em] Ey]]]];
    rewrite ?Ed, ?Em, ?Ey; reflexivity.
Qed.

(** The cross-validation returns for every record, and reports nothing but
    its own two defects. *)
Lemma cross_validate_total (now : Datetime.t) (r : KTPData) :
  exists errs,
    _cross_validate_nik_data now r = Normal errs
    /\ Forall (fun e => e = msg_cross_sex \/ e = msg_cross_date) errs.
Proof.
  destruct (py_int (slice (slice (nik r) 6 12) 0 2)) as [d0 | e] eqn:Ed.
  2:{ pose proof (py_int_raise _ _ Ed); subst e. exists [].
      split; [apply cross_validate_unparsed; now left | constructor]. }
  destruct (py_int (slice (slice (nik r) 6 12) 2 4)) as [m0 | e] eqn:Em.
  2:{ pose proof (py_int_raise _ _ Em); subst e. exists [].
      split; [| constructor]. apply cross_validate_unparsed. right.
      split; [now exists d0 | now left]. }
  destruct (py_int (slice (slice (nik r) 6 12) 4 6)) as [y0 | e] eqn:Ey.
  2:{ pose proof (py_int_raise _ _ Ey); subst e. exists [].
      split; [| constructor]. apply cross_validate_unparsed. right.
      split; [now exists d0 |]. right. split; [now exists m0 | assumption]. }
  eexists. split; [exact (cross_validate_numbers now r d0 m0 y0 Ed Em Ey) |].
  apply Forall_app. split.
  - unfold cross_sex_defects. destruct (jenis_kelamin r) as [g |];
      [destruct (Bool.eqb _ _) |];
      repeat (apply Forall_cons; [now left |]); apply Forall_nil.
  - unfold cross_date_defects. destruct (tanggal_lahir r) as [t |];
      [destruct (str_truthy t);
       [destruct (parse_declared t) as [[[d' m'] y'] |];
        [destruct (_ && _) |] |] |];
      repeat (apply Forall_cons; [now right |]); apply Forall_nil.
Qed.

(** ** The validator, statement by statement *)

Lemma bind_emits {B} (m : M unit) (l : list string) (k : unit -> M B)
    (errors : list string) :
  emits m l -> bind m k errors = k tt (errors ++ l)%list.
Proof.
  intros H. unfold bind. now rewrite H.
Qed.

Lemma bind_raises {B} (m : M unit) (e : exn) (k : unit -> M B)
    (errors : list string) :
  raises m e -> fst (bind m k errors) = Raise e.
Proof.
  intros H. unfold bind. specialize (H errors).
  destruct (m errors) as [[u | e'] errors']; simpl in H; [discriminate |].
  injection H as ->. reflexivity.
Qed.

Lemma emits_when_append (c : bool) (msg : string) :
  emits (when c (append msg)) (if c then [msg] else []).
Proof.
  intros errors. destruct c; cbv [when append ret];
    [reflexivity | now rewrite app_nil_r].
Qed.

Lemma emits_ret : emits (ret tt) [].
Proof.
  intros errors. cbv [ret]. now rewrite app_nil_r.
Qed.

Lemma emits_lift_extend (l : list string) :
  emits (x <- lift (Normal l) ;; extend x) l.
Proof.
  intros errors. reflexivity.
Qed.

Lemma raises_lift_extend (e : exn) :
  raises (x <- lift (Raise e) ;; extend x) e.
Proof.
  intros errors. reflexivity.
Qed.

Lemma all_field_if (c : bool) (msg : string) :
  kind_of msg = Field -> all_field (if c then [msg] else []).
Proof.
  intros H. destruct c; repeat constructor. exact H.
Qed.

(** The sex and the marital status are enumeration members, so their
    statements never report. *)
Lemma emits_gender (g : option JenisKelamin) :
  emits match g with
        | Some g =>
            when (str_truthy (JenisKelamin_value g)
                  && negb (str_in (JenisKelamin_value g) valid_genders))
                 (append (msg_gender ++ JenisKelamin_format g))
        | None => ret tt
        end [].
Proof.
  destruct g as [[] |]; apply emits_ret.
Qed.

Lemma emits_marital (st : option StatusPerkawinan) :
  emits match st with
        | Some st =>
            when (str_truthy (StatusPerkawinan_value st)
                  && negb (str_in (StatusPerkawinan_value st)
                                  valid_marital_status))
                 (append (msg_marital ++ StatusPerkawinan_format st))
        | None => ret tt
        end [].
Proof.
  destruct st as [[] |]; apply emits_ret.
Qed.

Lemma validate_province_total (province : string) :
  exists l, _validate_province province = Normal l /\ all_field l.
Proof.
  unfold _validate_province. cbv [returning_errors when append ret].
  destruct (negb (str_in (strip (upper province)) valid_provinces));
    [destruct (filter _ valid_provinces) |];
    eexists; (split; [reflexivity |]); repeat constructor.
Qed.

Lemma emits_province (o : option string) :
  exists l,
    emits (when_str o (fun provinsi =>
             province_errors <- lift (_validate_province provinsi) ;;
             extend province_errors)) l
    /\ all_field l.
Proof.
  unfold when_str. destruct o as [p |];
    [destruct (str_truthy p) |];
    try (exists []; split; [apply emits_ret | constructor]).
  destruct (validate_province_total p) as [l [E Hl]].
  exists l. rewrite E. split; [apply emits_lift_extend | exact Hl].
Qed.

Lemma emits_religion (o : option string) :
  exists l,
    emits (when_str o (fun agama =>
             when (negb (str_in (upper agama) valid_religions))
                  (append (msg_religion ++ agama)))) l
    /\ all_field l.
Proof.
  unfold when_str. destruct o as [a |];
    [destruct (str_truthy a) |];
    try (exists []; split; [apply emits_ret | constructor]).
  eexists. split; [apply emits_when_append |].
  now apply all_field_if.
Qed.

Lemma emits_rt_rw (o : option string) :
  exists l,
    emits (when_str o (fun rt_rw =>
             when (negb (_validate_rt_rw_format rt_rw))
                  (append (msg_rt_rw ++ rt_rw)))) l
    /\ all_field l.
Proof.
  unfold when_str. destruct o as [a |];
    [destruct (str_truthy a) |];
    try (exists []; split; [apply emits_ret | constructor]).
  eexists. split; [apply emits_when_append |].
  now apply all_field_if.
Qed.

(** The statement of the declared birth date: it raises on the overflowing
    dates and reports field defects otherwise. *)
Lemma birth_date_statement (now : Datetime.t) (r : KTPData) :
  let stmt :=
    when_str (tanggal_lahir r) (fun tanggal_lahir =>
      date_errors <- lift (_validate_birth_date now tanggal_lahir) ;;
      extend date_errors) in
  if record_overflows r then raises stmt OverflowError
  else exists l, emits stmt l /\ all_field l.
Proof.
  unfold record_overflows, when_str. cbv zeta.
  destruct (tanggal_lahir r) as [t |];
    [destruct (str_truthy t) |]; cbn [andb];
    try (exists []; split; [apply emits_ret | constructor]).
  pose proof (validate_birth_date_outcome now t) as H.
  destruct (date_overflows t).
  - rewrite H. apply raises_lift_extend.
  - destruct H as [l [E Hl]]. exists l. rewrite E.
    split; [apply emits_lift_extend | exact Hl].
Qed.

Lemma bind_lift_normal {A B} (a : A) (k : A -> M B) (errors : list string) :
  bind (lift (Normal a)) k errors = k a errors.
Proof. reflexivity. Qed.

Lemma emits_extend (l : list string) : emits (extend l) l.
Proof. intros errors. reflexivity. Qed.

Lemma emits_cross (c : bool) (cl : list string) :
  emits (when c (cross_errors <- lift (Normal cl) ;; extend cross_errors))
        (if c then cl else []).
Proof.
  destruct c; [apply emits_lift_extend | apply emits_ret].
Qed.

(** The defect list of the validator, part by part: the defects of the
    identity number, then those of the other fields, then those of the
    cross-validation, which runs when the identity number and the declared
    birth date are both present. *)
Lemma validate_ktp_data_parts (now : Datetime.t) (r : KTPData) :
  record_overflows r = false ->
  exists ne fs cl,
    _validate_nik now (nik r) = Normal ne
    /\ all_field fs
    /\ _cross_validate_nik_data now r = Normal cl
    /\ Forall (fun e => e = msg_cross_sex \/ e = msg_cross_date) cl
    /\ validate_ktp_data now r
       = Normal (outcome_of
                   (List.app ne
                      (List.app fs
                         (if str_truthy (nik r)
                             && opt_truthy (tanggal_lahir r)
                          then cl else [])))).
Proof.
  intros Hov.
  destruct (validate_nik_total now (nik r)) as [ne Hne].
  destruct (cross_validate_total now r) as [cl [Hcl Hck]].
  pose proof (birth_date_statement now r) as Hb. cbv zeta in Hb.
  rewrite Hov in Hb. destruct Hb as [ld [Eld Hld]].
  destruct (emits_province (provinsi r)) as [lp [Elp Hlp]].
  destruct (emits_religion (agama r)) as [lr [Elr Hlr]].
  destruct (emits_rt_rw (rt_rw r)) as [lt [Elt Hlt]].
  set (c := negb (str_truthy (nama r))
            || (String.length (strip (nama r)) <? 2)%nat).
  exists ne,
    (List.app (if c then [msg_name] else [])
       (List.app ld (List.app lp (List.app lr lt)))), cl.
  split; [exact Hne |]. split.
  { apply Forall_app. split; [now apply all_field_if |].
    repeat (apply Forall_app; split); assumption. }
  split; [exact Hcl |]. split; [exact Hck |].
  unfold validate_ktp_data. rewrite Hne, Hcl. fold c.
  rewrite bind_lift_normal.
  rewrite (bind_emits _ _ _ _ (emits_extend ne)).
  rewrite (bind_emits _ _ _ _ (emits_when_append c msg_name)).
  rewrite (bind_emits _ _ _ _ Eld).
  rewrite (bind_emits _ _ _ _ (emits_gender (jenis_kelamin r))).
  rewrite (bind_emits _ _ _ _ Elp).
  rewrite (bind_emits _ _ _ _ Elr).
  rewrite (bind_emits _ _ _ _ (emits_marital (status_perkawinan r))).
  rewrite (bind_emits _ _ _ _ Elt).
  rewrite (emits_cross _ cl).
  unfold outcome_of. cbn [List.app]. rewrite !app_nil_r, <- !app_assoc.
  reflexivity.
Qed.

(** On an overflowing declared birth date the validator raises. *)
Lemma validate_ktp_data_overflow (now : Datetime.t) (r : KTPData) :
  record_overflows r = true ->
  validate_ktp_data now r = Raise OverflowError.
Proof.
  intros Hov.
  destruct (validate_nik_total now (nik r)) as [ne Hne].
  pose proof (birth_date_statement now r) as Hb. cbv zeta in Hb.
  rewrite Hov in Hb.
  unfold validate_ktp_data. rewrite Hne.
  rewrite bind_lift_normal.
  rewrite (bind_emits _ _ _ _ (emits_extend ne)).
  rewrite (bind_emits _ _ _ _ (emits_when_append _ msg_name)).
  match goal with
  | |- match ?x with _ => _ end = _ =>
      assert (E : fst x = Raise OverflowError) by now apply bind_raises
  end.
  match goal with
  | |- match ?x with _ => _ end = _ => destruct x as [[u | e] l]
  end; simpl in E; [discriminate | congruence].
Qed.

(** The cross-validation on a well-shaped identity number, in terms of its
    embedded day, month and year. *)
Lemma cross_validate_16 (now : Datetime.t) (r : KTPData) :
  is_16_digits (nik r) = true ->
  _cross_validate_nik_data now r
  = Normal (List.app
              (cross_sex_defects (embedded_raw_day (nik r)) (jenis_kelamin r))
              (cross_date_defects now (embedded_raw_day (nik r))
                 (embedded_month (nik r)) (embedded_yy (nik r))
                 (tanggal_lahir r))).
Proof.
  intros H. apply cross_validate_numbers;
    remember (nik r) as n eqn:En; clear En; destruct_nik n H;
    unfold slice; cbn [substring Nat.sub];
    rewrite py_int_two_digits by assumption; reflexivity.
Qed.


(** The validator raises exactly on the overflowing declared dates. *)
Lemma validate_ktp_data_raises_iff (now : Datetime.t) (r : KTPData) :
  (exists e, validate_ktp_data now r = Raise e) <-> record_overflows r = true.
Proof.
  split.
  - intros [e He]. destruct (record_overflows r) eqn:Hov; [reflexivity |].
    destruct (validate_ktp_data_parts now r Hov)
      as (ne & fs & cl & _ & _ & _ & _ & Hv).
    rewrite Hv in He. discriminate He.
  - intros Hov. exists OverflowError. now apply validate_ktp_data_overflow.
Qed.

(** The validation step of the endpoint on a result that is valid upstream
    and carries data: it is the fusion of the validator's outcome. *)
Lemma verify_ktp_validation_fuses (now : Datetime.t)
    (ar : KTPValidationResult) (data : KTPData) (q : Q) :
  is_valid_ktp ar = true -> extracted_data ar = Some data ->
  record_overflows data = false ->
  exists errs,
    validate_ktp_data now data = Normal (outcome_of errs)
    /\ verify_ktp_validation now ar q = Normal (fuse ar (outcome_of errs) q).
Proof.
  intros Hv Hd Hov.
  destruct (validate_ktp_data_parts now data Hov)
    as (ne & fs & cl & _ & _ & _ & _ & E).
  eexists. split; [exact E |].
  unfold verify_ktp_validation. now rewrite Hv, Hd, E.
Qed.

(** Otherwise the step leaves the result as it is. *)
Lemma verify_ktp_validation_skips (now : Datetime.t)
    (ar : KTPValidationResult) (q : Q) :
  is_valid_ktp ar = false \/ extracted_data ar = None ->
  verify_ktp_validation now ar q = Normal ar.
Proof.
  unfold verify_ktp_validation.
  intros [H | H]; rewrite H; [reflexivity |].
  now destruct (is_valid_ktp ar).
Qed.

(** ** Counting defects by kind *)

Lemma count_kind_app (k : defect_kind) (a b : list string) :
  count_kind k (a ++ b) = (count_kind k a + count_kind k b)%nat.
Proof.
  unfold count_kind. now rewrite filter_app, length_app.
Qed.

Lemma count_kind_none (k : defect_kind) (P : string -> Prop)
    (l : list string) :
  Forall P l ->
  (forall e, P e -> defect_kind_eqb (kind_of e) k = false) ->
  count_kind k l = 0%nat.
Proof.
  intros Hl HP. unfold count_kind.
  induction Hl as [| e l He Hl IH]; [reflexivity |].
  cbn [filter]. now rewrite (HP e He).
Qed.

Lemma count_kind_field (k : defect_kind) (l : list string) :
  all_field l -> k <> Field -> count_kind k l = 0%nat.
Proof.
  intros Hl Hk. apply (count_kind_none k _ l Hl).
  intros e ->. destruct k; try reflexivity. contradiction.
Qed.


Lemma count_kind_zero_not_in (e : string) (l : list string) :
  count_kind (kind_of e) l = 0%nat -> ~ In e l.
Proof.
  unfold count_kind. intros H Hin.
  assert (Hf : In e (filter (fun x => defect_kind_eqb (kind_of x) (kind_of e)) l)).
  { apply filter_In. split; [exact Hin |]. destruct (kind_of e); reflexivity. }
  destruct (filter _ l); [contradiction | discriminate].
Qed.

Lemma Normal_inj {A} (a b : A) : Normal a = Normal b -> a = b.
Proof. intros H. now injection H. Qed.

Lemma kind_of_region (x : string) : kind_of (msg_region ++ x) = Region.
Proof. destruct x; reflexivity. Qed.

Lemma kind_of_nik_date (x : string) :
  kind_of (msg_nik_date ++ x) = EmbeddedDate.
Proof. destruct x; reflexivity. Qed.

Lemma nik_kind_16 (now : Datetime.t) (nik : string) (ne : list string)
    (k : defect_kind) :
  is_16_digits nik = true -> _validate_nik now nik = Normal ne ->
  k <> Region -> k <> EmbeddedDate -> k <> Sequence ->
  count_kind k ne = 0%nat.
Proof.
  intros H E Hr Hd Hs. rewrite (validate_nik_16 now nik H) in E.
  apply Normal_inj in E. subst ne.
  rewrite !count_kind_app. unfold count_kind.
  destruct (_validate_region_code _); destruct (spec_embedded_date_ok now nik);
    destruct (String.eqb _ "0000");
    cbn [filter]; rewrite ?kind_of_region, ?kind_of_nik_date;
    destruct k; try reflexivity; contradiction.
Qed.

(** ** The claims on the validator *)

(** C2, at the failing input. A declared birth date that parses and whose
    year is no C [int] makes [datetime(year, month, day)] raise
    [OverflowError], which neither handler of [_validate_birth_date]
    catches: the validator raises instead of reporting a defect. *)
Theorem validate_ktp_data_raises_on_huge_year :
  validate_ktp_data noon_2024_06_15 record_huge_year = Raise OverflowError.
Proof. reflexivity. Qed.

(** C4, counterexample. With no declared birth date the sex cross-check does
    not run: a male identity number (raw day 25) and a declared female sex
    pass without any defect. *)
Lemma cross_sex_skipped_without_birth_date :
  is_16_digits (nik record_sex_without_date) = true
  /\ jenis_kelamin record_sex_without_date = Some PEREMPUAN
  /\ embedded_female (nik record_sex_without_date) <> declared_female PEREMPUAN
  /\ validate_ktp_data noon_2024_06_15 record_sex_without_date
     = Normal (true, [])
  /\ ~ (In msg_cross_sex []
        <-> embedded_female (nik record_sex_without_date)
            <> declared_female PEREMPUAN).
Proof.
  repeat split; try reflexivity.
  - discriminate.
  - intros [_ H]. apply H. discriminate.
Qed.

(** C4, amended. For a record whose identity number is exactly 16 ASCII
    digits and whose declared sex is present, on which the validator returns
    (the declared birth date does not overflow): when the declared birth
    date is present the sex-mismatch defect is reported if and only if the
    embedded sex differs from the declared sex, whatever the defects of the
    embedded or the declared date; when it is absent or empty the
    sex-mismatch defect is not reported. *)
Theorem sex_cross_check (now : Datetime.t) (r : KTPData) (g : JenisKelamin) :
  is_16_digits (nik r) = true ->
  jenis_kelamin r = Some g ->
  record_overflows r = false ->
  exists errs,
    validate_ktp_data now r = Normal (outcome_of errs)
    /\ (opt_truthy (tanggal_lahir r) = true ->
        (In msg_cross_sex errs
         <-> embedded_female (nik r) <> declared_female g))
    /\ (opt_truthy (tanggal_lahir r) = false -> ~ In msg_cross_sex errs).
Proof.
  intros H16 Hg Hov.
  destruct (validate_ktp_data_parts now r Hov)
    as (ne & fs & cl & Hne & Hfs & Hcl & Hck & Hv).
  rewrite (is_16_digits_truthy _ H16) in Hv. cbn [andb] in Hv.
  eexists. split; [exact Hv |].
  assert (Hne0 : ~ In msg_cross_sex ne).
  { apply count_kind_zero_not_in.
    apply (nik_kind_16 now (nik r)); try assumption; discriminate. }
  assert (Hfs0 : ~ In msg_cross_sex fs).
  { apply count_kind_zero_not_in.
    apply count_kind_field; [assumption | discriminate]. }
  split.
  - intros Ht. rewrite Ht.
    rewrite (cross_validate_16 now r H16) in Hcl.
    apply Normal_inj in Hcl. subst cl.
    rewrite Hg. unfold cross_sex_defects. fold (embedded_female (nik r)).
    assert (Hdate : ~ In msg_cross_sex
                      (cross_date_defects now (embedded_raw_day (nik r))
                         (embedded_month (nik r)) (embedded_yy (nik r))
                         (tanggal_lahir r))).
    { unfold cross_date_defects. destruct (tanggal_lahir r) as [t |];
        [destruct (str_truthy t);
         [destruct (parse_declared t) as [[[d' m'] y'] |];
          [destruct (_ && _) |] |] |];
        cbn [In]; intuition discriminate. }
    rewrite !in_app_iff.
    destruct (embedded_female (nik r)); destruct (declared_female g);
      cbn [Bool.eqb In]; split; intros Hx;
      try congruence; tauto.
  - intros Ht. rewrite Ht. rewrite !in_app_iff. cbn [In]. tauto.
Qed.

Lemma sex_cross_check_witness :
  is_16_digits (nik record_sex_with_date) = true
  /\ jenis_kelamin record_sex_with_date = Some PEREMPUAN
  /\ record_overflows record_sex_with_date = false
  /\ exists errs,
      validate_ktp_data noon_2024_06_15 record_sex_with_date
      = Normal (outcome_of errs)
      /\ (opt_truthy (tanggal_lahir record_sex_with_date) = true ->
          (In msg_cross_sex errs
           <-> embedded_female (nik record_sex_with_date)
               <> declared_female PEREMPUAN))
      /\ (opt_truthy (tanggal_lahir record_sex_with_date) = false ->
          ~ In msg_cross_sex errs).
Proof.
  split; [reflexivity |]. split; [reflexivity |]. split; [reflexivity |].
  apply (sex_cross_check noon_2024_06_15 record_sex_with_date PEREMPUAN);
    reflexivity.
Defined.




(** C10. For a 16-digit identity number whose raw embedded day lies in
    [32,40], whatever the month, the year and the clock: the embedded
    birth-date check fails, [_validate_nik] reports the embedded-date
    defect, and so does the validator on every record with this identity
    number on which it returns. *)
Theorem raw_day_32_to_40_rejected (now : Datetime.t) (r : KTPData) :
  is_16_digits (nik r) = true ->
  32 <= embedded_raw_day (nik r) <= 40 ->
  _validate_birth_date_in_nik now (slice (nik r) 6 12) = Normal false
  /\ (exists ne,
         _validate_nik now (nik r) = Normal ne
         /\ In (msg_nik_date ++ slice (nik r) 6 12) ne)
  /\ (record_overflows r = false ->
      exists errs,
        validate_ktp_data now r = Normal (false, errs)
        /\ In (msg_nik_date ++ slice (nik r) 6 12) errs).
Proof.
  intros H16 Hday.
  assert (Hok : spec_embedded_date_ok now (nik r) = false).
  { unfold spec_embedded_date_ok, spec_date_ok.
    rewrite (gtb_false (embedded_raw_day (nik r)) 40) by lia.
    rewrite (leb_true 1 _) by lia. rewrite (leb_false _ 31) by lia.
    reflexivity. }
  assert (Hin : In (msg_nik_date ++ slice (nik r) 6 12)
                   (List.app
                      (if _validate_region_code (slice (nik r) 0 6) then []
                       else [msg_region ++ slice (nik r) 0 6])
                      (List.app
                         [msg_nik_date ++ slice (nik r) 6 12]
                         (if String.eqb (slice (nik r) 12 16) "0000"
                          then [msg_sequence] else [])))).
  { apply in_or_app. right. now left. }
  pose proof (validate_nik_16 now (nik r) H16) as Hne.
  rewrite Hok in Hne.
  split; [| split].
  - rewrite (validate_birth_date_in_nik_16 now (nik r) H16). now rewrite Hok.
  - eexists. split; [exact Hne | exact Hin].
  - intros Hov.
    destruct (validate_ktp_data_parts now r Hov)
      as (ne & fs & cl & Hne' & Hfs & Hcl & Hck & Hv).
    rewrite Hne in Hne'. apply Normal_inj in Hne'. subst ne.
    eexists. split.
    + rewrite Hv. unfold outcome_of. f_equal. f_equal.
      match goal with
      | |- Nat.eqb (List.length ?l) 0 = false =>
          assert (Hl : In (msg_nik_date ++ slice (nik r) 6 12) l)
            by (apply in_or_app; left; exact Hin);
          destruct l; [destruct Hl | reflexivity]
      end.
    + apply in_or_app. left. exact Hin.
Qed.

Lemma raw_day_32_to_40_rejected_witness :
  is_16_digits (nik record_day_34) = true
  /\ 32 <= embedded_raw_day (nik record_day_34) <= 40
  /\ _validate_birth_date_in_nik noon_2024_06_15
       (slice (nik record_day_34) 6 12) = Normal false.
Proof.
  assert (H16 : is_16_digits (nik record_day_34) = true) by reflexivity.
  assert (Hd : 32 <= embedded_raw_day (nik record_day_34) <= 40)
    by (vm_compute; split; discriminate).
  split; [exact H16 |]. split; [exact Hd |].
  exact (proj1 (raw_day_32_to_40_rejected noon_2024_06_15 record_day_34
                  H16 Hd)).
Defined.

(** C7. For every 16-digit identity number and every clock, the embedded
    birth-date check and the declared-versus-embedded date cross-check both
    read the 2-digit year [yy] with the pivot rule of the specification,
    [2000 + yy] when [yy <= (currentYear - 1900) mod 100] and [1900 + yy]
    otherwise: the first is the range, calendar and future check on the
    pivot year, the second reports the date defect exactly when a component
    of the embedded date, with the pivot year, differs from the declared
    date. *)
Theorem pivot_year_in_both_checks (now : Datetime.t) (r : KTPData) :
  is_16_digits (nik r) = true ->
  let yy := embedded_yy (nik r) in
  let pivot := (Datetime.year now - 1900) mod 100 in
  let full := spec_pivot_year (Datetime.year now) yy in
  (yy <= pivot -> full = 2000 + yy)
  /\ (pivot < yy -> full = 1900 + yy)
  /\ _validate_birth_date_in_nik now (slice (nik r) 6 12)
     = Normal
         ((1 <=? embedded_day (nik r)) && (embedded_day (nik r) <=? 31)
          && (1 <=? embedded_month (nik r))
          && (embedded_month (nik r) <=? 12)
          && (embedded_day (nik r)
              <=? Datetime.days_in_month full (embedded_month (nik r)))
          && negb (Datetime.gt
                     (Datetime.make full (embedded_month (nik r))
                                    (embedded_day (nik r)) 0 0 0 0)
                     now))
  /\ (forall t d m y,
         tanggal_lahir r = Some t -> str_truthy t = true ->
         parse_declared t = Some (d, m, y) ->
         exists errs,
           _cross_validate_nik_data now r = Normal errs
           /\ (In msg_cross_date errs
               <-> ~ (embedded_day (nik r) = d
                      /\ embedded_month (nik r) = m
                      /\ full = y))).
Proof.
  intros H16 yy pivot full.
  split; [| split; [| split]].
  - intros Hle. unfold full, spec_pivot_year. fold pivot.
    now rewrite (leb_true yy pivot Hle).
  - intros Hlt. unfold full, spec_pivot_year. fold pivot.
    now rewrite (leb_false yy pivot Hlt).
  - rewrite (validate_birth_date_in_nik_16 now (nik r) H16). reflexivity.
  - intros t d m y Ht Htr Hp.
    eexists. split; [exact (cross_validate_16 now r H16) |].
    rewrite in_app_iff.
    assert (Hsex : ~ In msg_cross_date
                     (cross_sex_defects (embedded_raw_day (nik r))
                                        (jenis_kelamin r))).
    { unfold cross_sex_defects. destruct (jenis_kelamin r) as [g |];
        [destruct (Bool.eqb _ _) |]; cbn [In]; intuition discriminate. }
    unfold cross_date_defects. rewrite Ht, Htr, Hp.
    fold (embedded_female (nik r)). fold (embedded_day (nik r)).
    fold yy. fold full.
    destruct (Z.eqb_spec (embedded_day (nik r)) d) as [Ed | Ed];
      destruct (Z.eqb_spec (embedded_month (nik r)) m) as [Em | Em];
      destruct (Z.eqb_spec full y) as [Ey | Ey];
      cbn [andb In]; tauto.
Qed.

Lemma pivot_year_in_both_checks_witness :
  is_16_digits (nik record_sex_with_date) = true
  /\ exists errs,
      _cross_validate_nik_data noon_2024_06_15 record_sex_with_date
      = Normal errs
      /\ (In msg_cross_date errs
          <-> ~ (embedded_day (nik record_sex_with_date) = 25
                 /\ embedded_month (nik record_sex_with_date) = 1
                 /\ spec_pivot_year 2024
                      (embedded_yy (nik record_sex_with_date)) = 1990)).
Proof.
  assert (H16 : is_16_digits (nik record_sex_with_date) = true)
    by reflexivity.
  split; [exact H16 |].
  exact (proj2 (proj2 (proj2
           (pivot_year_in_both_checks noon_2024_06_15 record_sex_with_date
              H16)))
           "25-01-1990" 25 1 1990 eq_refl eq_refl eq_refl).
Defined.

(** ** The province *)

Lemma prefix_spec (a b : string) :
  prefix a b = true <-> exists post, b = (a ++ post)%string.
Proof.
  revert b. induction a as [| c a IH]; intros b.
  - split; [intros _; now exists b | intros _; now destruct b].
  - destruct b as [| c' b]; cbn [prefix].
    + split; [discriminate | intros [post H]; discriminate H].
    + destruct (ascii_dec c c') as [-> | Hc].
      * rewrite IH. split; intros [post H]; exists post.
        -- cbn. now rewrite H.
        -- cbn in H. now injection H.
      * split; [discriminate |].
        intros [post H]. cbn in H. injection H as H1 H2. congruence.
Qed.

Lemma contains_step (a b : string) :
  contains a b
  = prefix a b
    || match b with
       | EmptyString => false
       | String _ r => contains a r
       end.
Proof. destruct b; reflexivity. Qed.

(** [contains] decides the occurrence of a string in another. *)
Lemma contains_spec (a b : string) :
  contains a b = true <-> Substring a b.
Proof.
  unfold Substring. split.
  - induction b as [| c b IH]; rewrite contains_step; intros H;
      apply orb_prop in H; destruct H as [H | H]; try discriminate H.
    + apply prefix_spec in H. destruct H as [post H]. now exists "", post.
    + apply prefix_spec in H. destruct H as [post H]. now exists "", post.
    + destruct (IH H) as (pre & post & E).
      exists (String c pre), post. cbn. now rewrite E.
  - intros (pre & post & E). subst b.
    induction pre as [| c pre IH]; rewrite contains_step.
    + apply orb_true_intro. left. apply prefix_spec. now exists post.
    + apply orb_true_intro. right. exact IH.
Qed.

Lemma str_in_spec (x : string) (l : list string) :
  str_in x l = true <-> In x l.
Proof.
  unfold str_in. rewrite existsb_exists. split.
  - intros (y & Hy & E). apply String.eqb_eq in E. now subst y.
  - intros H. exists x. split; [exact H | apply String.eqb_refl].
Qed.

(** C6, counterexample. The list of the validator has 38 province names,
    all different, not 37. *)
Lemma valid_provinces_not_37 :
  List.length valid_provinces <> 37%nat /\ NoDup valid_provinces.
Proof.
  split; [discriminate |].
  assert (E : nodup string_dec valid_provinces = valid_provinces)
    by (vm_compute; reflexivity).
  rewrite <- E. apply NoDup_nodup.
Qed.

(** C6, amended. The province check upper-cases and trims the string and
    accepts exactly the strings that equal, are a substring of, or contain a
    member of the fixed list of 38 province names; any other string yields
    exactly one province defect. *)
Theorem validate_province_fuzzy (province : string) :
  let u := strip (upper province) in
  (province_accepted u <-> _validate_province province = Normal [])
  /\ (~ province_accepted u
      <-> _validate_province province = Normal [msg_province ++ province])
  /\ List.length valid_provinces = 38%nat.
Proof.
  intros u.
  assert (Hcases :
            (province_accepted u /\ _validate_province province = Normal [])
            \/ (~ province_accepted u
                /\ _validate_province province
                   = Normal [msg_province ++ province])).
  { unfold _validate_province. cbv [returning_errors when append ret].
    fold u.
    destruct (str_in u valid_provinces) eqn:Ein; cbn [negb].
    - left. split; [| reflexivity].
      apply str_in_spec in Ein. exists u. split; [exact Ein | now left].
    - destruct (filter (fun p => contains u p || contains p u)
                       valid_provinces) as [| x l] eqn:Ef.
      + right. split; [| reflexivity].
        intros (m & Hm & Hacc).
        assert (Hx : In m (filter (fun p => contains u p || contains p u)
                                  valid_provinces)).
        { apply filter_In. split; [exact Hm |].
          destruct Hacc as [-> | [Hs | Hs]].
          - apply str_in_spec in Hm. congruence.
          - apply contains_spec in Hs. now rewrite Hs.
          - apply contains_spec in Hs. rewrite Hs. apply orb_true_r. }
        rewrite Ef in Hx. destruct Hx.
      + left. split; [| reflexivity].
        assert (Hx : In x (filter (fun p => contains u p || contains p u)
                                  valid_provinces))
          by (rewrite Ef; now left).
        apply filter_In in Hx. destruct Hx as [Hm Hc].
        exists x. split; [exact Hm |]. right.
        apply orb_prop in Hc.
        destruct Hc as [Hc | Hc]; apply contains_spec in Hc; tauto. }
  split; [| split; [| reflexivity]].
  - destruct Hcases as [[Ha Hr] | [Ha Hr]]; split; intros H;
      try assumption; try contradiction.
    rewrite Hr in H. discriminate H.
  - destruct Hcases as [[Ha Hr] | [Ha Hr]]; split; intros H;
      try assumption; try contradiction.
    rewrite Hr in H. discriminate H.
Qed.


(** * Further properties of the code *)

(** ** The validator as a concatenation of its rules *)

Lemma emits_province_explicit (r : KTPData) :
  emits (when_str (provinsi r) (fun provinsi =>
           province_errors <- lift (_validate_province provinsi) ;;
           extend province_errors))
        (province_defects r).
Proof.
  unfold province_defects, when_str. destruct (provinsi r) as [p |];
    [destruct (str_truthy p) |]; try apply emits_ret.
  destruct (validate_province_total p) as [l [E _]]. rewrite E.
  apply emits_lift_extend.
Qed.

Lemma emits_religion_explicit (r : KTPData) :
  emits (when_str (agama r) (fun agama =>
           when (negb (str_in (upper agama) valid_religions))
                (append (msg_religion ++ agama))))
        (religion_defects r).
Proof.
  unfold religion_defects, when_str. destruct (agama r) as [a |];
    [destruct (str_truthy a) |]; try apply emits_ret.
  cbn [andb]. apply emits_when_append.
Qed.

Lemma emits_rt_rw_explicit (r : KTPData) :
  emits (when_str (rt_rw r) (fun rt_rw =>
           when (negb (_validate_rt_rw_format rt_rw))
                (append (msg_rt_rw ++ rt_rw))))
        (rt_rw_defects r).
Proof.
  unfold rt_rw_defects, when_str. destruct (rt_rw r) as [a |];
    [destruct (str_truthy a) |]; try apply emits_ret.
  cbn [andb]. apply emits_when_append.
Qed.

Lemma birth_defects_cases (now : Datetime.t) (r : KTPData) :
  if record_overflows r
  then birth_defects now r = Raise OverflowError
  else exists l, birth_defects now r = Normal l /\ all_field l.
Proof.
  unfold record_overflows, birth_defects.
  destruct (tanggal_lahir r) as [t |];
    [destruct (str_truthy t) |]; cbn [andb];
    try (exists []; split; [reflexivity | constructor]).
  apply validate_birth_date_outcome.
Qed.

Lemma emits_birth_explicit (now : Datetime.t) (r : KTPData)
    (l : list string) :
  birth_defects now r = Normal l ->
  emits (when_str (tanggal_lahir r) (fun tanggal_lahir =>
           date_errors <- lift (_validate_birth_date now tanggal_lahir) ;;
           extend date_errors)) l.
Proof.
  unfold birth_defects, when_str. destruct (tanggal_lahir r) as [t |];
    [destruct (str_truthy t) |].
  - intros ->. apply emits_lift_extend.
  - intros E. apply Normal_inj in E. subst l. apply emits_ret.
  - intros E. apply Normal_inj in E. subst l. apply emits_ret.
Qed.

(** The validator returns the defects of its rules in rule order, unless
    the declared birth date makes it raise. *)
Lemma validate_ktp_data_explicit (now : Datetime.t) (r : KTPData) :
  validate_ktp_data now r
  = match birth_defects now r with
    | Normal date_errors => Normal (outcome_of (all_defects now r date_errors))
    | Raise e => Raise e
    end.
Proof.
  destruct (record_overflows r) eqn:Hov.
  - rewrite (validate_ktp_data_overflow now r Hov).
    pose proof (birth_defects_cases now r) as H. rewrite Hov in H.
    now rewrite H.
  - pose proof (birth_defects_cases now r) as H. rewrite Hov in H.
    destruct H as [ld [Eld _]]. rewrite Eld.
    destruct (validate_nik_total now (nik r)) as [ne Hne].
    destruct (cross_validate_total now r) as [cl [Hcl _]].
    unfold all_defects, nik_defects, cross_defects.
    unfold validate_ktp_data. rewrite Hne, Hcl.
    rewrite bind_lift_normal.
    rewrite (bind_emits _ _ _ _ (emits_extend ne)).
    rewrite (bind_emits _ _ _ _ (emits_when_append _ msg_name)).
    rewrite (bind_emits _ _ _ _ (emits_birth_explicit now r ld Eld)).
    rewrite (bind_emits _ _ _ _ (emits_gender (jenis_kelamin r))).
    rewrite (bind_emits _ _ _ _ (emits_province_explicit r)).
    rewrite (bind_emits _ _ _ _ (emits_religion_explicit r)).
    rewrite (bind_emits _ _ _ _ (emits_marital (status_perkawinan r))).
    rewrite (bind_emits _ _ _ _ (emits_rt_rw_explicit r)).
    rewrite (emits_cross _ cl).
    unfold outcome_of, name_defects. cbn [List.app].
    rewrite !app_nil_r, <- !app_assoc. reflexivity.
Qed.

(** ** Integer literals of digits *)

Lemma digits_acc_digits (s : string) (acc : Z) (b : bool) :
  forallb is_digit (list_ascii_of_string s) = true ->
  (b = true \/ s <> EmptyString) ->
  digits_acc s acc b = Normal (digits_value s acc).
Proof.
  revert acc b. induction s as [| c s IH]; intros acc b Hd Hb.
  - destruct Hb as [-> | Hb]; [reflexivity | contradiction].
  - cbn [list_ascii_of_string forallb] in Hd. apply andb_prop in Hd.
    destruct Hd as [Hc Hs]. cbn [digits_acc digits_value]. rewrite Hc.
    apply IH; [exact Hs | now left].
Qed.

Lemma digits_value_bounds (s : string) (acc : Z) :
  forallb is_digit (list_ascii_of_string s) = true -> 0 <= acc ->
  acc * 10 ^ Z.of_nat (String.length s)
  <= digits_value s acc
  < (acc + 1) * 10 ^ Z.of_nat (String.length s).
Proof.
  revert acc. induction s as [| c s IH]; intros acc Hd Hacc.
  - cbn. lia.
  - cbn [list_ascii_of_string forallb] in Hd. apply andb_prop in Hd.
    destruct Hd as [Hc Hs]. apply digit_val_bounds in Hc.
    cbn [digits_value String.length].
    rewrite Nat2Z.inj_succ, Z.pow_succ_r by lia.
    specialize (IH (10 * acc + digit_val c) Hs ltac:(lia)).
    assert (Hp : 0 < 10 ^ Z.of_nat (String.length s))
      by (apply Z.pow_pos_nonneg; lia).
    nia.
Qed.

Lemma rstrip_by_digits (s : string) :
  forallb is_digit (list_ascii_of_string s) = true ->
  rstrip_by is_int_space s = s.
Proof.
  induction s as [| c s IH]; [reflexivity |].
  cbn [list_ascii_of_string forallb]. intros Hd. apply andb_prop in Hd.
  destruct Hd as [Hc Hs]. cbn [rstrip_by]. rewrite (IH Hs).
  destruct s; [| reflexivity].
  digit_cases c Hc; reflexivity.
Qed.

(** [int()] of a literal of digits alone. *)
Lemma py_int_digits (s : string) :
  isdigit s = true ->
  py_int s = Normal (digits_value s 0)
  /\ 0 <= digits_value s 0 < 10 ^ Z.of_nat (String.length s).
Proof.
  unfold isdigit. intros H. apply andb_prop in H. destruct H as [Hne Hd].
  split.
  - destruct s as [| c s]; [discriminate Hne |].
    pose proof Hd as Hd'.
    cbn [list_ascii_of_string forallb] in Hd'. apply andb_prop in Hd'.
    destruct Hd' as [Hc Hs].
    unfold py_int, strip_by.
    assert (El : lstrip_by is_int_space (String c s) = String c s)
      by (cbn [lstrip_by]; digit_cases c Hc; reflexivity).
    rewrite El, (rstrip_by_digits _ Hd).
    rewrite <- (digits_acc_digits (String c s) 0 false Hd)
      by (right; discriminate).
    digit_cases c Hc; reflexivity.
  - pose proof (digits_value_bounds s 0 Hd ltac:(lia)) as Hb. lia.
Qed.

(** ** The validators of the model *)

(** A date that the model accepts parses into a day in [1,31], a month in
    [1,12] and a year of four digits. *)
Lemma is_valid_date_format_parses (t : string) :
  KTPModel._is_valid_date_format t = true ->
  exists d m y,
    parse_declared t = Some (d, m, y)
    /\ 1 <= d <= 31 /\ 1 <= m <= 12 /\ 0 <= y <= 9999.
Proof.
  unfold KTPModel._is_valid_date_format, parse_declared, bare_except.
  destruct (split "-" t) as [| a [| b [| c [| x l]]]];
    try (cbn; discriminate).
  cbn [List.length Nat.eqb negb].
  cbv [eval bind lift ret unpack3 fst].
  destruct ((String.length a =? 2)%nat) eqn:La; [| cbn; discriminate].
  destruct ((String.length b =? 2)%nat) eqn:Lb; [| cbn; discriminate].
  destruct ((String.length c =? 4)%nat) eqn:Lc; [| cbn; discriminate].
  destruct (isdigit a) eqn:Da; [| cbn; discriminate].
  destruct (isdigit b) eqn:Db; [| cbn; discriminate].
  destruct (isdigit c) eqn:Dc; [| cbn; discriminate].
  cbn [andb].
  destruct (py_int_digits a Da) as [Ea Ba].
  destruct (py_int_digits b Db) as [Eb Bb].
  destruct (py_int_digits c Dc) as [Ec Bc].
  rewrite Ea, Eb, Ec.
  apply Nat.eqb_eq in Lc. rewrite Lc in Bc.
  destruct ((1 <=? digits_value a 0) && (digits_value a 0 <=? 31)) eqn:Rd;
    [| cbn; discriminate].
  cbv beta iota.
  intros Rm. cbn in Rm.
  apply andb_prop in Rd. destruct Rd as [Rd1 Rd2].
  apply andb_prop in Rm. destruct Rm as [Rm1 Rm2].
  apply Z.leb_le in Rd1, Rd2, Rm1, Rm2.
  exists (digits_value a 0), (digits_value b 0), (digits_value c 0).
  split; [reflexivity |].
  change (10 ^ Z.of_nat 4) with 10000 in Bc. lia.
Qed.

Lemma model_date_no_overflow (r : KTPData) :
  KTPModel.validate_tanggal_lahir (tanggal_lahir r)
  = Normal (tanggal_lahir r) ->
  record_overflows r = false.
Proof.
  unfold KTPModel.validate_tanggal_lahir, record_overflows, opt_truthy.
  destruct (tanggal_lahir r) as [t |]; [| reflexivity].
  destruct (str_truthy t); [| reflexivity]. cbn [andb].
  destruct (KTPModel._is_valid_date_format t) eqn:E; [| discriminate].
  intros _.
  destruct (is_valid_date_format_parses t E)
    as (d & m & y & Ep & Hd & Hm & Hy).
  unfold date_overflows. rewrite Ep. unfold Datetime.fits_c_int.
  zdecide. reflexivity.
Qed.

(** X1. The validator returns, with a defect list, for every record whose
    declared birth date the model's validator accepts: a record built by the
    constructor of the model never makes it raise. *)
Theorem model_validated_never_raises (now : Datetime.t) (r : KTPData) :
  KTPModel.validate_tanggal_lahir (tanggal_lahir r)
  = Normal (tanggal_lahir r) ->
  exists errs, validate_ktp_data now r = Normal (outcome_of errs).
Proof.
  intros H. apply model_date_no_overflow in H.
  destruct (validate_ktp_data_parts now r H)
    as (ne & fs & cl & _ & _ & _ & _ & Hv).
  eexists. exact Hv.
Qed.

Lemma model_validated_never_raises_witness :
  KTPModel.validate_tanggal_lahir (tanggal_lahir record_model_valid)
  = Normal (tanggal_lahir record_model_valid)
  /\ exists errs,
      validate_ktp_data noon_2024_06_15 record_model_valid
      = Normal (outcome_of errs).
Proof.
  split; [reflexivity |].
  apply (model_validated_never_raises noon_2024_06_15 record_model_valid).
  reflexivity.
Defined.

(** ** The rule of the identity number *)

Lemma model_nik_16 (v : string) :
  KTPModel.validate_nik v = Normal v -> is_16_digits v = true.
Proof.
  unfold KTPModel.validate_nik, isdigit, is_16_digits.
  destruct (str_truthy v); [| discriminate]. cbn [andb].
  destruct (forallb is_digit (list_ascii_of_string v)); [| discriminate].
  destruct (String.length v =? 16)%nat; [reflexivity | discriminate].
Qed.

(** X2. An identity number in ASCII text that the model's validator accepts
    passes the shape test of [_validate_nik]: for it the rule reports no
    shape defect.  (Outside ASCII the two tests differ: [str.isdigit] takes
    superscript digits, [\d] does not.) *)
Theorem model_nik_passes_shape (now : Datetime.t) (v : string) :
  is_ascii v = true ->
  KTPModel.validate_nik v = Normal v ->
  exists l, _validate_nik now v = Normal l /\ count_kind Shape l = 0%nat.
Proof.
  intros _ H. apply model_nik_16 in H.
  eexists. split; [exact (validate_nik_16 now v H) |].
  apply (nik_kind_16 now v); [exact H | exact (validate_nik_16 now v H) | ..];
    discriminate.
Qed.

Lemma model_nik_passes_shape_witness :
  is_ascii (nik record_model_valid) = true
  /\ KTPModel.validate_nik (nik record_model_valid)
     = Normal (nik record_model_valid)
  /\ exists l,
      _validate_nik noon_2024_06_15 (nik record_model_valid) = Normal l
      /\ count_kind Shape l = 0%nat.
Proof.
  split; [reflexivity |]. split; [reflexivity |].
  apply (model_nik_passes_shape noon_2024_06_15 (nik record_model_valid));
    reflexivity.
Defined.

Lemma nik_sub_rules_shape (now : Datetime.t) (d : string) (l : list string) :
  is_16_digits d = true -> _validate_nik now d = Normal l ->
  count_kind Shape l = 0%nat
  /\ (count_kind Region l <= 1)%nat
  /\ (count_kind EmbeddedDate l <= 1)%nat
  /\ (count_kind Sequence l <= 1)%nat
  /\ List.length l
     = (count_kind Region l + count_kind EmbeddedDate l
        + count_kind Sequence l)%nat.
Proof.
  intros H E. rewrite (validate_nik_16 now d H) in E.
  apply Normal_inj in E. subst l.
  rewrite !count_kind_app, !length_app. unfold count_kind.
  destruct (_validate_region_code _); destruct (spec_embedded_date_ok now d);
    destruct (String.eqb _ "0000");
    cbn [filter]; rewrite ?kind_of_region, ?kind_of_nik_date;
    cbn; repeat split; lia.
Qed.

(** X3. For every string, [_validate_nik] returns either a presence or
    shape defect alone, or no shape defect and at most one region, one
    embedded-date and one sequence defect and nothing else: never more than
    three defects. *)
Theorem validate_nik_defects_shape (now : Datetime.t) (nik : string) :
  exists l,
    _validate_nik now nik = Normal l
    /\ (List.length l <= 3)%nat
    /\ (l = [msg_nik_empty] \/ l = [msg_nik_shape]
        \/ (count_kind Shape l = 0%nat
            /\ (count_kind Region l <= 1)%nat
            /\ (count_kind EmbeddedDate l <= 1)%nat
            /\ (count_kind Sequence l <= 1)%nat
            /\ List.length l
               = (count_kind Region l + count_kind EmbeddedDate l
                  + count_kind Sequence l)%nat)).
Proof.
  destruct (str_truthy nik) eqn:Ht.
  2:{ eexists. split; [now apply validate_nik_empty |].
      split; [cbn; lia | now left]. }
  destruct (re_match_nik nik) eqn:Hm.
  2:{ eexists. split; [now apply validate_nik_bad_shape |].
      split; [cbn; lia | right; now left]. }
  rewrite re_match_nik_spec in Hm. apply orb_prop in Hm.
  assert (Hd : exists d, is_16_digits d = true
                         /\ _validate_nik now nik = _validate_nik now d).
  { destruct Hm as [H16 | Hnl]; [now exists nik |].
    exists (substring 0 16 nik). split.
    - apply andb_prop in Hnl. tauto.
    - now apply validate_nik_16_nl. }
  destruct Hd as (d & H16 & E). rewrite E.
  eexists. split; [exact (validate_nik_16 now d H16) |].
  pose proof (nik_sub_rules_shape now d _ H16 (validate_nik_16 now d H16))
    as Hs.
  split; [lia | right; right; exact Hs].
Qed.

Lemma ascii_zero (c : ascii) :
  is_digit c = true -> Ascii.eqb c "0" = (digit_val c =? 0).
Proof.
  intros H. digit_cases c H; reflexivity.
Qed.

Lemma nik_clean_16 (now : Datetime.t) (nik : string) :
  is_16_digits nik = true ->
  (_validate_nik now nik = Normal []
   <-> two_digits nik 0 <> 0 /\ two_digits nik 2 <> 0
       /\ two_digits nik 4 <> 0
       /\ spec_embedded_date_ok now nik = true
       /\ (two_digits nik 12 <> 0 \/ two_digits nik 14 <> 0)).
Proof.
  intros H. rewrite (validate_nik_16 now nik H).
  assert (Hreg : _validate_region_code (slice nik 0 6) = true
                 <-> two_digits nik 0 <> 0 /\ two_digits nik 2 <> 0
                     /\ two_digits nik 4 <> 0).
  { pose proof H as H'. destruct_nik nik H'.
    unfold _validate_region_code, slice.
    cbn [substring Nat.sub String.eqb].
    cbv [two_digits digit_at String.get].
    rewrite !ascii_zero by assumption.
    repeat match goal with
           | Hc : is_digit ?c = true |- _ =>
               apply digit_val_bounds in Hc
           end.
    repeat match goal with
           | |- context [?a =? 0] => destruct (Z.eqb_spec a 0)
           end; cbn [andb]; split; try discriminate; try reflexivity; lia. }
  assert (Hseq : String.eqb (slice nik 12 16) "0000" = false
                 <-> (two_digits nik 12 <> 0 \/ two_digits nik 14 <> 0)).
  { pose proof H as H'. destruct_nik nik H'.
    unfold slice. cbn [substring Nat.sub String.eqb].
    cbv [two_digits digit_at String.get].
    rewrite !ascii_zero by assumption.
    repeat match goal with
           | Hc : is_digit ?c = true |- _ =>
               apply digit_val_bounds in Hc
           end.
    repeat match goal with
           | |- context [?a =? 0] => destruct (Z.eqb_spec a 0)
           end; cbn [andb]; split; try discriminate; try reflexivity; lia. }
  destruct (_validate_region_code (slice nik 0 6)) eqn:Er;
    destruct (spec_embedded_date_ok now nik) eqn:Ed;
    destruct (String.eqb (slice nik 12 16) "0000") eqn:Es;
    cbn [List.app]; split; intros Hx;
    try discriminate Hx; try reflexivity;
    try (destruct Hx as (H0 & H2 & H4 & Hok & Hs);
         try discriminate Hok;
         try (apply Hseq in Hs; discriminate Hs);
         try (assert (Hf : false = true) by (apply Hreg; tauto);
              discriminate Hf)).
  repeat split; try tauto; try (apply Hreg; reflexivity).
Qed.

(** X4. For an identity number of 16 digits, [_validate_nik] reports
    nothing if and only if none of the three region segments is zero, the
    embedded birth date passes its check and the sequence number is not
    zero. *)
Theorem validate_nik_clean_iff (now : Datetime.t) (nik : string) :
  is_16_digits nik = true ->
  (_validate_nik now nik = Normal []
   <-> two_digits nik 0 <> 0 /\ two_digits nik 2 <> 0
       /\ two_digits nik 4 <> 0
       /\ spec_embedded_date_ok now nik = true
       /\ (two_digits nik 12 <> 0 \/ two_digits nik 14 <> 0)).
Proof. apply nik_clean_16. Qed.

Lemma validate_nik_clean_iff_witness :
  is_16_digits (nik record_model_valid) = true
  /\ (_validate_nik noon_2024_06_15 (nik record_model_valid) = Normal []
      <-> two_digits (nik record_model_valid) 0 <> 0
          /\ two_digits (nik record_model_valid) 2 <> 0
          /\ two_digits (nik record_model_valid) 4 <> 0
          /\ spec_embedded_date_ok noon_2024_06_15 (nik record_model_valid)
             = true
          /\ (two_digits (nik record_model_valid) 12 <> 0
              \/ two_digits (nik record_model_valid) 14 <> 0)).
Proof.
  split; [reflexivity |].
  apply (validate_nik_clean_iff noon_2024_06_15 (nik record_model_valid)).
  reflexivity.
Defined.

(** ** The rule of the declared birth date *)

Lemma validate_birth_date_unparsed (now : Datetime.t) (t : string) :
  parse_declared t = None ->
  _validate_birth_date now t = Normal [msg_date_format ++ t].
Proof.
  intros Hp. unfold _validate_birth_date.
  cbv [returning_errors try_except bind lift].
  destruct (parse_declared_cases t)
    as [(a & b & c & d & m & y & _ & _ & _ & _ & Ep)
       | (_ & [Eu | (a & b & c & Eu
                     & [Ea | ((dd & Ea) & [Eb | ((mm & Eb) & Ec)])])])];
    [congruence | ..];
    rewrite Eu; cbv beta iota; rewrite ?Ea, ?Eb, ?Ec; reflexivity.
Qed.

Lemma validate_birth_date_parsed (now : Datetime.t) (t : string)
    (d m y : Z) :
  parse_declared t = Some (d, m, y) -> date_overflows t = false ->
  _validate_birth_date now t = Normal (declared_date_defects now t d m y).
Proof.
  intros Hp Hov. unfold date_overflows in Hov. rewrite Hp in Hov.
  apply negb_false_iff in Hov.
  destruct (parse_declared_cases t)
    as [(a & b & c & d' & m' & y' & Eu & Ea & Eb & Ec & Ep)
       | (Ep & _)]; [| congruence].
  rewrite Ep in Hp. injection Hp as -> -> ->.
  unfold _validate_birth_date, declared_date_defects, real_date.
  cbv [returning_errors try_except bind lift]. rewrite Eu. cbv beta iota.
  rewrite Ea, Eb, Ec. cbv [when append ret]. unfold Datetime.new.
  rewrite Hov. cbn [negb].
  destruct ((d <? 1) || (d >? 31)); destruct ((m <? 1) || (m >? 12));
    destruct ((y <? 1900) || (y >? Datetime.year now));
    (destruct ((1 <=? y) && (y <=? 9999) && (1 <=? m) && (m <=? 12)
               && (1 <=? d) && (d <=? Datetime.days_in_month y m));
     [destruct (Datetime.gt _ now) |]);
    reflexivity.
Qed.

(** X5. A declared birth date that does not split into three integer
    literals yields the format defect and nothing else. *)
Theorem birth_date_format_defect_alone (now : Datetime.t) (t : string) :
  parse_declared t = None ->
  _validate_birth_date now t = Normal [msg_date_format ++ t].
Proof. apply validate_birth_date_unparsed. Qed.

Lemma birth_date_format_defect_alone_witness :
  parse_declared "25/01/1990" = None
  /\ _validate_birth_date noon_2024_06_15 "25/01/1990"
     = Normal [msg_date_format ++ "25/01/1990"].
Proof.
  split; [reflexivity |].
  apply (birth_date_format_defect_alone noon_2024_06_15 "25/01/1990").
  reflexivity.
Defined.

(** X6. A declared birth date whose day or month is out of range is
    reported twice or more: beside the range defect, the constructor of
    [datetime] refuses it and the calendar defect, which carries the whole
    date, is added; a date never yields more than four defects. *)
Theorem birth_date_range_defect_doubled (now : Datetime.t) (t : string)
    (d m y : Z) :
  parse_declared t = Some (d, m, y) -> date_overflows t = false ->
  d < 1 \/ 31 < d \/ m < 1 \/ 12 < m ->
  exists errs,
    _validate_birth_date now t = Normal errs
    /\ In (msg_day ++ t) errs
    /\ (2 <= List.length errs <= 4)%nat.
Proof.
  intros Hp Hov Hr. eexists.
  split; [exact (validate_birth_date_parsed now t d m y Hp Hov) |].
  unfold declared_date_defects.
  assert (Hreal : real_date y m d = false).
  { unfold real_date.
    destruct (Z_lt_le_dec d 1); [zdecide; cbn; now rewrite !andb_false_r |].
    destruct (Z_lt_le_dec m 1); [zdecide; cbn; now rewrite !andb_false_r |].
    destruct (Z_lt_le_dec 12 m); [zdecide; cbn; now rewrite !andb_false_r |].
    assert (31 < d) by lia.
    assert (Hdim : Datetime.days_in_month y m <= 31).
    { unfold Datetime.days_in_month.
      destruct (m =? 2); [destruct (Datetime.is_leap y); lia |].
      destruct ((m =? 4) || (m =? 6) || (m =? 9) || (m =? 11)); lia. }
    rewrite (leb_false d (Datetime.days_in_month y m)) by lia.
    now rewrite !andb_false_r. }
  rewrite Hreal.
  assert (Hrange : ((d <? 1) || (d >? 31)) || ((m <? 1) || (m >? 12)) = true).
  { destruct Hr as [H | [H | [H | H]]]; zdecide; cbn;
      rewrite ?orb_true_r; reflexivity. }
  split.
  - rewrite !in_app_iff. right. right. right. now left.
  - rewrite !length_app.
    destruct ((d <? 1) || (d >? 31)); destruct ((m <? 1) || (m >? 12));
      try discriminate Hrange;
      destruct ((y <? 1900) || (y >? Datetime.year now)); cbn; lia.
Qed.

Lemma birth_date_range_defect_doubled_witness :
  parse_declared "41-13-1990" = Some (41, 13, 1990)
  /\ date_overflows "41-13-1990" = false
  /\ exists errs,
      _validate_birth_date noon_2024_06_15 "41-13-1990" = Normal errs
      /\ In (msg_day ++ "41-13-1990") errs
      /\ (2 <= List.length errs <= 4)%nat.
Proof.
  split; [reflexivity |]. split; [reflexivity |].
  apply (birth_date_range_defect_doubled noon_2024_06_15 "41-13-1990"
           41 13 1990); [reflexivity | reflexivity | lia].
Defined.

Lemma days_in_month_le_31 (y m : Z) : Datetime.days_in_month y m <= 31.
Proof.
  unfold Datetime.days_in_month.
  destruct (m =? 2); [destruct (Datetime.is_leap y); lia |].
  destruct ((m =? 4) || (m =? 6) || (m =? 9) || (m =? 11)); lia.
Qed.

Lemma real_date_bounds (y m d : Z) :
  real_date y m d = true ->
  1 <= y <= 9999 /\ 1 <= m <= 12 /\ 1 <= d <= 31.
Proof.
  unfold real_date. intros H.
  repeat (apply andb_prop in H; destruct H as [H ?]).
  repeat match goal with
         | Hx : (_ <=? _) = true |- _ => apply Z.leb_le in Hx
         end.
  pose proof (days_in_month_le_31 y m). lia.
Qed.

Lemma not_future_year (now : Datetime.t) (y m d : Z) :
  Datetime.gt (Datetime.make y m d 0 0 0 0) now = false ->
  y <= Datetime.year now.
Proof.
  unfold Datetime.gt, Datetime.fields. cbn [Datetime.lex_gt Datetime.year].
  intros H. apply orb_false_elim in H. destruct H as [H _].
  rewrite Z.gtb_ltb in H. apply Z.ltb_ge in H. exact H.
Qed.

(** The declared date passes its rule exactly when it parses into a real
    calendar date from the year 1900 on that is not after the clock. *)
Lemma validate_birth_date_clean_iff (now : Datetime.t) (t : string) :
  _validate_birth_date now t = Normal []
  <-> exists d m y,
      parse_declared t = Some (d, m, y)
      /\ 1900 <= y /\ real_date y m d = true
      /\ Datetime.gt (Datetime.make y m d 0 0 0 0) now = false.
Proof.
  split.
  - intros H.
    destruct (parse_declared t) as [[[d m] y] |] eqn:Ep.
    2:{ rewrite (validate_birth_date_unparsed now t Ep) in H.
        discriminate H. }
    pose proof (validate_birth_date_outcome now t) as Ho.
    destruct (date_overflows t) eqn:Hov; [congruence |].
    rewrite (validate_birth_date_parsed now t d m y Ep Hov) in H.
    apply Normal_inj in H. unfold declared_date_defects in H.
    exists d, m, y. split; [reflexivity |].
    destruct ((d <? 1) || (d >? 31)); [discriminate H |].
    destruct ((m <? 1) || (m >? 12)); [discriminate H |].
    destruct ((y <? 1900) || (y >? Datetime.year now)) eqn:Ey;
      [discriminate H |].
    destruct (real_date y m d); [| discriminate H].
    destruct (Datetime.gt _ now); [discriminate H |].
    apply orb_false_elim in Ey. destruct Ey as [Ey _].
    apply Z.ltb_ge in Ey. repeat split; assumption.
  - intros (d & m & y & Ep & Hy & Hr & Hf).
    pose proof (real_date_bounds y m d Hr) as (By & Bm & Bd).
    pose proof (not_future_year now y m d Hf) as Hn.
    assert (Hov : date_overflows t = false).
    { unfold date_overflows. rewrite Ep. unfold Datetime.fits_c_int.
      zdecide. reflexivity. }
    rewrite (validate_birth_date_parsed now t d m y Ep Hov).
    unfold declared_date_defects. rewrite Hr, Hf. zdecide. reflexivity.
Qed.

(** X7. The declared birth date passes its rule, with no defect, exactly
    when it parses into a real calendar date from the year 1900 on that is
    not after the clock; the range checks on day, month and current year
    add nothing to that. *)
Theorem declared_birth_date_accepted_iff (now : Datetime.t) (t : string) :
  _validate_birth_date now t = Normal []
  <-> exists d m y,
      parse_declared t = Some (d, m, y)
      /\ 1900 <= y /\ real_date y m d = true
      /\ Datetime.gt (Datetime.make y m d 0 0 0 0) now = false.
Proof. apply validate_birth_date_clean_iff. Qed.

(** ** The fusion step and the summary *)

#[local] Open Scope Q_scope.

Lemma penalised_score_bounds (vr : KTPValidationResult) :
  confidence_score vr - (3 # 10) <= penalised_score vr
  /\ penalised_score vr <= confidence_score vr.
Proof.
  unfold penalised_score. destruct (validation_errors vr) as [| e l].
  - lra.
  - set (k := inject_Z (Z.of_nat (List.length (e :: l)))).
    assert (Hk : 0 <= k).
    { unfold k. replace 0 with (inject_Z 0) by reflexivity.
      rewrite <- Zle_Qle. lia. }
    destruct (py_min_spec (3 # 10) (k * (1 # 10))) as [[H ->] | [H ->]]; lra.
Qed.

Lemma clamp01_le (x c : Q) : x <= c -> 0 <= c -> clamp01 x <= c.
Proof.
  intros Hx Hc. unfold clamp01.
  destruct (py_min_spec 1 x) as [[H1 ->] | [H1 ->]];
    destruct (py_max_spec 0 1) as [[H2 E2] | [H2 E2]];
    destruct (py_max_spec 0 x) as [[H3 E3] | [H3 E3]];
    try rewrite E2; try rewrite E3; lra.
Qed.

(** The result that [calculate_confidence_score] reads in the fusion
    step. *)
Lemma fuse_confidence_eq (ar : KTPValidationResult) (errs : list string)
    (q : Q) :
  exists vr,
    confidence_score (fuse ar (outcome_of errs) q)
    = calculate_confidence_score vr q
    /\ confidence_score vr = confidence_score ar
    /\ List.length (validation_errors vr)
       = (List.length (validation_errors ar) + List.length errs)%nat.
Proof.
  unfold fuse, outcome_of. destruct errs as [| e l].
  - exists ar. cbn. split; [reflexivity |]. split; [reflexivity | lia].
  - cbn [List.length Nat.eqb negb].
    destruct (3 <? S (List.length l))%nat;
      eexists; (split; [reflexivity |]); cbn; rewrite length_app; cbn;
      split; reflexivity.
Qed.

(** X8. The fusion step never raises the confidence: for an upstream
    confidence that is not negative and an image-quality score in the unit
    interval (the endpoint passes 0.8 or 1.0), the final confidence is at
    most the upstream confidence, whatever the defects. *)
Theorem fuse_never_raises_confidence (ar : KTPValidationResult)
    (errs : list string) (q : Q) :
  0 <= confidence_score ar -> 0 <= q <= 1 ->
  confidence_score (fuse ar (outcome_of errs) q) <= confidence_score ar.
Proof.
  intros Hc Hq.
  destruct (fuse_confidence_eq ar errs q) as (vr & E & Ec & _).
  rewrite E, score_unfold, <- Ec. rewrite <- Ec in Hc.
  destruct (penalised_score_bounds vr) as [_ Hp].
  apply clamp01_le; [| exact Hc].
  destruct (Qlt_le_dec (penalised_score vr) 0) as [Hn | Hpos].
  - setoid_replace 0 with (0 * q) in Hc by ring.
    apply Qle_trans with (0 * q); [| lra].
    apply Qmult_le_compat_r; lra.
  - apply Qle_trans with (penalised_score vr * 1); [| lra].
    rewrite (Qmult_comm (penalised_score vr) q),
            (Qmult_comm (penalised_score vr) 1).
    apply Qmult_le_compat_r; lra.
Qed.

Lemma fuse_never_raises_confidence_witness :
  0 <= confidence_score (scored (95 # 100) [])
  /\ 0 <= image_quality_score false <= 1
  /\ confidence_score
       (fuse (scored (95 # 100) []) (outcome_of ["a"; "b"])
             (image_quality_score false))
     <= confidence_score (scored (95 # 100) []).
Proof.
  assert (H1 : 0 <= confidence_score (scored (95 # 100) []))
    by discriminate.
  assert (H2 : 0 <= image_quality_score false <= 1)
    by (split; discriminate).
  split; [exact H1 |]. split; [exact H2 |].
  exact (fuse_never_raises_confidence (scored (95 # 100) []) ["a"; "b"]
           (image_quality_score false) H1 H2).
Defined.

(** X9. The defect penalty is capped at 3/10: for an image-quality score
    that is not negative, the final confidence lies between the clamped
    products of the image-quality score with the confidence less 3/10 and
    with the confidence itself, however many defects there are. *)
Theorem calculate_confidence_score_penalty_cap (vr : KTPValidationResult)
    (q : Q) :
  0 <= q ->
  clamp01 ((confidence_score vr - (3 # 10)) * q)
  <= calculate_confidence_score vr q
  /\ calculate_confidence_score vr q <= clamp01 (confidence_score vr * q).
Proof.
  intros Hq. rewrite score_unfold.
  destruct (penalised_score_bounds vr) as [Hlo Hhi].
  split; apply clamp01_mono; apply Qmult_le_compat_r; assumption.
Qed.

Lemma calculate_confidence_score_penalty_cap_witness :
  0 <= (8 # 10)
  /\ clamp01 ((confidence_score (scored (9 # 10) ["a"; "b"; "c"; "d"; "e"])
               - (3 # 10)) * (8 # 10))
     <= calculate_confidence_score
          (scored (9 # 10) ["a"; "b"; "c"; "d"; "e"]) (8 # 10).
Proof.
  assert (H : 0 <= (8 # 10)) by discriminate.
  split; [exact H |].
  exact (proj1 (calculate_confidence_score_penalty_cap
                  (scored (9 # 10) ["a"; "b"; "c"; "d"; "e"]) (8 # 10) H)).
Defined.

Close Scope Q_scope.

(** X10. The severity that [get_validation_summary] gives to the outcome
    of the validator, against the validity override of the fusion step: a
    valid outcome is "low"; a "low" summary leaves the upstream validity as
    it is and a "high" one always comes with the validity forced to false
    (a "medium" one decides nothing: three defects keep the validity, four
    or five force it to false). *)
Theorem summary_severity_and_override (ar : KTPValidationResult)
    (errs : list string) (q : Q) :
  let s := get_validation_summary (fst (outcome_of errs)) errs in
  (summary_is_valid s = true -> severity s = "low")
  /\ (severity s = "low" ->
      is_valid_ktp (fuse ar (outcome_of errs) q) = is_valid_ktp ar)
  /\ (severity s = "high" ->
      is_valid_ktp (fuse ar (outcome_of errs) q) = false)
  /\ (severity s = "medium" ->
      is_valid_ktp (fuse ar (outcome_of errs) q)
      = if (List.length errs =? 3)%nat then is_valid_ktp ar else false).
Proof.
  unfold get_validation_summary, outcome_of, fuse.
  cbn [fst summary_is_valid severity].
  destruct errs as [| e1 [| e2 [| e3 [| e4 [| e5 [| e6 l]]]]]];
    cbn; repeat split; intros H; try discriminate H; reflexivity.
Qed.

Lemma fuse_invariants (ar : KTPValidationResult) (errs : list string)
    (q : Q) :
  extracted_data (fuse ar (outcome_of errs) q) = extracted_data ar
  /\ validation_errors (fuse ar (outcome_of errs) q)
     = List.app (validation_errors ar) errs
  /\ (is_valid_ktp (fuse ar (outcome_of errs) q) = true ->
      is_valid_ktp ar = true).
Proof.
  unfold fuse, outcome_of. destruct errs as [| e l].
  - cbn. rewrite app_nil_r. repeat split. auto.
  - cbn [List.length Nat.eqb negb].
    destruct (3 <? S (List.length l))%nat; cbn; repeat split; auto.
    discriminate.
Qed.

(** X11. The validation step of the endpoint keeps the extracted data,
    only appends to the error list and never turns an invalid result into a
    valid one; it leaves a result that is invalid upstream or carries no
    data untouched; and it raises only [OverflowError], on a valid result
    whose declared birth date overflows. *)
Theorem verify_ktp_validation_invariants (now : Datetime.t)
    (ar : KTPValidationResult) (q : Q) :
  match verify_ktp_validation now ar q with
  | Normal ar' =>
      extracted_data ar' = extracted_data ar
      /\ (exists errs,
             validation_errors ar' = List.app (validation_errors ar) errs)
      /\ (is_valid_ktp ar' = true -> is_valid_ktp ar = true)
      /\ (is_valid_ktp ar = false \/ extracted_data ar = None -> ar' = ar)
  | Raise e =>
      e = OverflowError /\ is_valid_ktp ar = true
      /\ exists data,
          extracted_data ar = Some data /\ record_overflows data = true
  end.
Proof.
  unfold verify_ktp_validation.
  destruct (is_valid_ktp ar) eqn:Hv.
  2:{ split; [reflexivity |].
      split; [exists []; now rewrite app_nil_r |].
      split; [intros H; congruence | reflexivity]. }
  destruct (extracted_data ar) as [data |] eqn:Hd.
  2:{ split; [congruence |].
      split; [exists []; now rewrite app_nil_r |].
      split; [intros H; congruence | reflexivity]. }
  destruct (record_overflows data) eqn:Hov.
  - rewrite (validate_ktp_data_overflow now data Hov).
    split; [reflexivity |]. split; [reflexivity |]. now exists data.
  - destruct (validate_ktp_data_parts now data Hov)
      as (ne & fs & cl & _ & _ & _ & _ & E).
    rewrite E.
    match goal with
    | |- context [outcome_of ?l] =>
        destruct (fuse_invariants ar l q) as (I1 & I2 & I3)
    end.
    split; [rewrite I1; exact Hd |]. split; [eexists; exact I2 |].
    split; [intros _; reflexivity |].
    intros [H | H]; discriminate H.
Qed.

(** ** Fields that the validator does not read *)

Lemma cross_validate_same_fields (now : Datetime.t) (r r' : KTPData) :
  nik r = nik r' -> tanggal_lahir r = tanggal_lahir r' ->
  jenis_kelamin r = jenis_kelamin r' ->
  _cross_validate_nik_data now r = _cross_validate_nik_data now r'.
Proof.
  intros Hn Ht Hg. unfold _cross_validate_nik_data.
  now rewrite Hn, Ht, Hg.
Qed.

(** X12. The outcome of the validator depends on seven fields only: two
    records that agree on the identity number, the name, the declared birth
    date, the sex, the province, the religion and the RT/RW pair get the
    same outcome (or the same exception), whatever their birth place,
    address, village, district, regency, marital status, occupation,
    nationality and validity period. *)
Theorem validate_ignores_other_fields (now : Datetime.t) (r r' : KTPData) :
  same_validated_fields r r' ->
  validate_ktp_data now r = validate_ktp_data now r'.
Proof.
  intros (Hn & Hm & Ht & Hg & Hp & Ha & Hr).
  rewrite !validate_ktp_data_explicit.
  unfold all_defects, nik_defects, name_defects, birth_defects,
    province_defects, religion_defects, rt_rw_defects, cross_defects.
  rewrite (cross_validate_same_fields now r r' Hn Ht Hg).
  now rewrite Hn, Hm, Ht, Hp, Ha, Hr.
Qed.

Lemma validate_ignores_other_fields_witness :
  same_validated_fields record_full record_full_other
  /\ validate_ktp_data noon_2024_06_15 record_full
     = validate_ktp_data noon_2024_06_15 record_full_other.
Proof.
  assert (H : same_validated_fields record_full record_full_other)
    by (repeat split).
  split; [exact H |].
  exact (validate_ignores_other_fields noon_2024_06_15 record_full
           record_full_other H).
Defined.

(** ** The RT/RW format *)

(** X13. Among ASCII texts, [_validate_rt_rw_format] accepts exactly three
    digits, a slash and three digits, alone or followed by one line feed
    (the [$] of the pattern matches before a final line feed).  (Outside
    ASCII the pattern also takes the decimal digits of other scripts.) *)
Theorem validate_rt_rw_format_iff (rt_rw : string) :
  is_ascii rt_rw = true ->
  (_validate_rt_rw_format rt_rw = true
   <-> exists a b,
       String.length a = 3%nat /\ String.length b = 3%nat
       /\ forallb is_digit (list_ascii_of_string a) = true
       /\ forallb is_digit (list_ascii_of_string b) = true
       /\ (rt_rw = (a ++ "/" ++ b)%string
           \/ rt_rw = (a ++ "/" ++ b ++ newline)%string)).
Proof.
  intros _. unfold _validate_rt_rw_format, re_match_rt_rw. split.
  - intros H.
    destruct rt_rw as [| c1 [| c2 [| c3 [| c4 r]]]];
      cbn [match_digits] in H;
      try destruct (is_digit c1) eqn:E1; try discriminate H;
      try destruct (is_digit c2) eqn:E2; try discriminate H;
      try destruct (is_digit c3) eqn:E3; try discriminate H.
    cbn [match_char] in H.
    destruct (Ascii.eqb_spec c4 "/") as [-> | Hc]; [| discriminate H].
    destruct r as [| c5 [| c6 [| c7 rest]]];
      cbn [match_digits] in H;
      try destruct (is_digit c5) eqn:E5; try discriminate H;
      try destruct (is_digit c6) eqn:E6; try discriminate H;
      try destruct (is_digit c7) eqn:E7; try discriminate H.
    unfold at_end in H. apply orb_prop in H.
    exists (String c1 (String c2 (String c3 ""))),
           (String c5 (String c6 (String c7 ""))).
    cbn [String.length list_ascii_of_string forallb].
    rewrite E1, E2, E3, E5, E6, E7.
    split; [reflexivity |]. split; [reflexivity |].
    split; [reflexivity |]. split; [reflexivity |].
    destruct H as [H | H]; apply String.eqb_eq in H; subst rest;
      [left | right]; reflexivity.
  - intros (a & b & La & Lb & Da & Db & Hs).
    destruct a as [| c1 [| c2 [| c3 [| x a]]]]; try discriminate La.
    destruct b as [| c5 [| c6 [| c7 [| x b]]]]; try discriminate Lb.
    cbn [list_ascii_of_string forallb] in Da, Db.
    apply andb_prop in Da. destruct Da as [D1 Da].
    apply andb_prop in Da. destruct Da as [D2 Da].
    apply andb_prop in Da. destruct Da as [D3 _].
    apply andb_prop in Db. destruct Db as [D5 Db].
    apply andb_prop in Db. destruct Db as [D6 Db].
    apply andb_prop in Db. destruct Db as [D7 _].
    destruct Hs as [-> | ->]; cbn [String.append match_digits];
      rewrite D1, D2, D3; cbn [match_char Ascii.eqb Bool.eqb andb];
      cbn [match_digits]; rewrite D5, D6, D7; reflexivity.
Qed.

Lemma validate_rt_rw_format_iff_witness :
  is_ascii "001/002" = true
  /\ (_validate_rt_rw_format "001/002" = true
      <-> exists a b,
          String.length a = 3%nat /\ String.length b = 3%nat
          /\ forallb is_digit (list_ascii_of_string a) = true
          /\ forallb is_digit (list_ascii_of_string b) = true
          /\ ("001/002" = (a ++ "/" ++ b)%string
              \/ "001/002" = (a ++ "/" ++ b ++ newline)%string)).
Proof.
  split; [reflexivity |].
  apply (validate_rt_rw_format_iff "001/002"). reflexivity.
Defined.

(** ** The window of the pivot year *)

Lemma embedded_yy_bounds (nik : string) :
  is_16_digits nik = true -> 0 <= embedded_yy nik <= 99.
Proof.
  intros H. destruct_nik nik H.
  cbv [embedded_yy two_digits digit_at String.get].
  repeat match goal with
         | Hc : is_digit ?c = true |- _ => apply digit_val_bounds in Hc
         end.
  lia.
Qed.

Lemma spec_embedded_date_ok_inv (now : Datetime.t) (nik : string) :
  spec_embedded_date_ok now nik = true ->
  let y := spec_pivot_year (Datetime.year now) (embedded_yy nik) in
  1 <= embedded_day nik <= 31 /\ 1 <= embedded_month nik <= 12
  /\ embedded_day nik <= Datetime.days_in_month y (embedded_month nik)
  /\ Datetime.gt (Datetime.make y (embedded_month nik) (embedded_day nik)
                                0 0 0 0) now = false.
Proof.
  unfold spec_embedded_date_ok, spec_date_ok.
  fold (embedded_female nik). fold (embedded_day nik).
  intros H. cbv zeta.
  repeat (apply andb_prop in H; destruct H as [H ?]).
  repeat match goal with
         | Hx : (_ <=? _) = true |- _ => apply Z.leb_le in Hx
         end.
  match goal with
  | Hx : negb _ = true |- _ => apply negb_true_iff in Hx
  end.
  repeat split; assumption.
Qed.



(** ** The date conversions of the stores *)

Lemma datetime_new_real (y m d : Z) :
  match Datetime.new y m d with
  | Normal t => Some t
  | Raise _ => None
  end
  = if real_date y m d then Some (Datetime.make y m d 0 0 0 0) else None.
Proof.
  unfold Datetime.new, real_date.
  destruct (Datetime.fits_c_int y && Datetime.fits_c_int m
            && Datetime.fits_c_int d) eqn:Hf; cbn [negb].
  - destruct ((1 <=? y) && (y <=? 9999) && (1 <=? m) && (m <=? 12)
              && (1 <=? d) && (d <=? Datetime.days_in_month y m));
      reflexivity.
  - destruct ((1 <=? y) && (y <=? 9999) && (1 <=? m) && (m <=? 12)
              && (1 <=? d) && (d <=? Datetime.days_in_month y m)) eqn:Hr;
      [| reflexivity].
    fold (real_date y m d) in Hr. apply real_date_bounds in Hr.
    unfold Datetime.fits_c_int in Hf. revert Hf. zdecide. discriminate.
Qed.

Lemma convert_date_spec (t : string) :
  str_truthy t = true ->
  DatabaseService._convert_date_format (Some t)
  = match parse_declared t with
    | Some (d, m, y) =>
        if real_date y m d then Some (Datetime.make y m d 0 0 0 0) else None
    | None => None
    end.
Proof.
  intros Ht. unfold DatabaseService._convert_date_format.
  rewrite Ht. cbn [negb]. unfold bare_except, parse_declared.
  cbv [eval bind lift ret fst].
  destruct (unpack3 (split "-" t)) as [[[a b] c] | e]; [| reflexivity].
  destruct (py_int c) as [y | e]; destruct (py_int b) as [m | e'];
    destruct (py_int a) as [d | e'']; try reflexivity.
  pose proof (datetime_new_real y m d) as H.
  destruct (Datetime.new y m d); exact H.
Qed.

(** X15. [DatabaseService._convert_date_format] yields a date exactly for a
    present declared date that parses into a real calendar date, and that
    date is midnight of the declared day; every other input, the
    overflowing dates included, yields [None] and no exception. *)
Theorem convert_date_format_iff (o : option string) (dt : Datetime.t) :
  DatabaseService._convert_date_format o = Some dt
  <-> exists t d m y,
      o = Some t /\ str_truthy t = true
      /\ parse_declared t = Some (d, m, y)
      /\ real_date y m d = true
      /\ dt = Datetime.make y m d 0 0 0 0.
Proof.
  split.
  - destruct o as [t |]; [| discriminate].
    destruct (str_truthy t) eqn:Ht.
    2:{ unfold DatabaseService._convert_date_format. rewrite Ht.
        discriminate. }
    rewrite (convert_date_spec t Ht).
    destruct (parse_declared t) as [[[d m] y] |] eqn:Ep; [| discriminate].
    destruct (real_date y m d) eqn:Hr; [| discriminate].
    intros H. injection H as <-. exists t, d, m, y.
    repeat split; auto.
  - intros (t & d & m & y & -> & Ht & Ep & Hr & ->).
    now rewrite (convert_date_spec t Ht), Ep, Hr.
Qed.

(** X16. A declared birth date that passes its rule without a defect is
    always stored: the conversion of the store yields midnight of the
    declared day, not [None]. *)
Theorem clean_birth_date_is_stored (now : Datetime.t) (t : string) :
  str_truthy t = true ->
  _validate_birth_date now t = Normal [] ->
  exists d m y,
    parse_declared t = Some (d, m, y)
    /\ DatabaseService._convert_date_format (Some t)
       = Some (Datetime.make y m d 0 0 0 0).
Proof.
  intros Ht H. apply validate_birth_date_clean_iff in H.
  destruct H as (d & m & y & Ep & _ & Hr & _).
  exists d, m, y. split; [exact Ep |].
  now rewrite (convert_date_spec t Ht), Ep, Hr.
Qed.

Lemma clean_birth_date_is_stored_witness :
  str_truthy "25-01-1990" = true
  /\ _validate_birth_date noon_2024_06_15 "25-01-1990" = Normal []
  /\ exists d m y,
      parse_declared "25-01-1990" = Some (d, m, y)
      /\ DatabaseService._convert_date_format (Some "25-01-1990")
         = Some (Datetime.make y m d 0 0 0 0).
Proof.
  split; [reflexivity |]. split; [reflexivity |].
  apply (clean_birth_date_is_stored noon_2024_06_15 "25-01-1990");
    reflexivity.
Defined.

Lemma split_no_hyphen (s : string) :
  no_hyphen s = true -> split "-" s = [s].
Proof.
  unfold no_hyphen. induction s as [| c s IH]; [reflexivity |].
  cbn [list_ascii_of_string forallb split]. intros H.
  apply andb_prop in H. destruct H as [Hc Hs].
  apply negb_true_iff in Hc. rewrite Hc, (IH Hs). reflexivity.
Qed.

Lemma split_app_hyphen (x rest : string) :
  no_hyphen x = true ->
  split "-" (x ++ String "-" rest) = x :: split "-" rest.
Proof.
  unfold no_hyphen. induction x as [| c x IH]; [reflexivity |].
  cbn [list_ascii_of_string forallb String.append split]. intros H.
  apply andb_prop in H. destruct H as [Hc Hs].
  apply negb_true_iff in Hc. rewrite Hc, (IH Hs). reflexivity.
Qed.

Lemma split_nonempty (s : string) : split "-" s <> [].
Proof.
  destruct s as [| c s]; [discriminate |]. cbn [split].
  destruct (Ascii.eqb c "-"); [discriminate |].
  destruct (split "-" s); discriminate.
Qed.

(** The parts of a split have no hyphen, and joined by hyphens they give
    the string back. *)
Lemma split_parts (s : string) (p : string) (ps : list string) :
  split "-" s = p :: ps ->
  no_hyphen p = true
  /\ match ps with
     | [] => s = p
     | _ => exists rest, s = (p ++ String "-" rest)%string
                         /\ split "-" rest = ps
     end.
Proof.
  revert p ps. induction s as [| c s IH]; intros p ps.
  - cbn [split]. intros H. injection H as <- <-. split; reflexivity.
  - cbn [split]. destruct (Ascii.eqb_spec c "-") as [-> | Hc].
    + intros H. injection H as <- <-. split; [reflexivity |].
      pose proof (split_nonempty s) as Hn.
      destruct (split "-" s) as [| q qs] eqn:E; [contradiction |].
      exists s. split; [reflexivity | exact E].
    + destruct (split "-" s) as [| q qs] eqn:E;
        [now destruct (split_nonempty s) |].
      intros H. injection H as <- <-.
      destruct (IH q qs eq_refl) as [Hq Hrest].
      split.
      * unfold no_hyphen in *. cbn [list_ascii_of_string forallb].
        rewrite Hq. apply Ascii.eqb_neq in Hc. now rewrite Hc.
      * destruct qs as [| q' qs'].
        -- now rewrite Hrest.
        -- destruct Hrest as (rest & -> & Er). exists rest.
           split; [reflexivity | exact Er].
Qed.

Lemma split_three (t a b c : string) :
  split "-" t = [a; b; c] ->
  t = (a ++ "-" ++ b ++ "-" ++ c)%string
  /\ no_hyphen a = true /\ no_hyphen b = true /\ no_hyphen c = true.
Proof.
  intros H. destruct (split_parts t a [b; c] H) as [Ha (r1 & -> & E1)].
  destruct (split_parts r1 b [c] E1) as [Hb (r2 & -> & E2)].
  destruct (split_parts r2 c [] E2) as [Hc ->].
  repeat split; assumption.
Qed.

(** X17. [MySQLService._convert_date_format] reorders the three parts of a
    present date between hyphens, whatever they are, and is its own
    inverse: converting the converted date gives the date back. *)
Theorem mysql_convert_date_involutive (t u : string) :
  MySQLService._convert_date_format (Some t) = Some u ->
  MySQLService._convert_date_format (Some u) = Some t
  /\ exists a b c,
      split "-" t = [a; b; c]
      /\ u = (c ++ "-" ++ b ++ "-" ++ a)%string.
Proof.
  unfold MySQLService._convert_date_format, bare_except.
  destruct (str_truthy t); [| discriminate]. cbn [negb].
  cbv [eval bind lift ret fst].
  destruct (split "-" t) as [| a [| b [| c [| x l]]]] eqn:Es;
    try discriminate.
  cbn [unpack3]. intros H.
  assert (Eq : u = (c ++ "-" ++ b ++ "-" ++ a)%string) by congruence.
  clear H. subst u.
  destruct (split_three t a b c Es) as (Et & Ha & Hb & Hc).
  split; [| exists a, b, c; split; reflexivity].
  assert (Eu : split "-" (c ++ "-" ++ b ++ "-" ++ a) = [c; b; a]).
  { cbn [String.append].
    rewrite (split_app_hyphen c _ Hc), (split_app_hyphen b _ Hb),
            (split_no_hyphen a Ha).
    reflexivity. }
  assert (Hu : str_truthy (c ++ "-" ++ b ++ "-" ++ a) = true)
    by (destruct c; reflexivity).
  rewrite Hu, Eu. cbn [negb unpack3]. now rewrite Et.
Qed.

Lemma mysql_convert_date_involutive_witness :
  MySQLService._convert_date_format (Some "25-01-1990") = Some "1990-01-25"
  /\ MySQLService._convert_date_format (Some "1990-01-25")
     = Some "25-01-1990".
Proof.
  assert (H : MySQLService._convert_date_format (Some "25-01-1990")
              = Some "1990-01-25") by reflexivity.
  split; [exact H |].
  exact (proj1 (mysql_convert_date_involutive "25-01-1990" "1990-01-25" H)).
Defined.

(** ** The two date rules on a consistent record *)

Lemma embedded_date_real (now : Datetime.t) (nik : string) :
  is_16_digits nik = true -> spec_embedded_date_ok now nik = true ->
  let y := spec_pivot_year (Datetime.year now) (embedded_yy nik) in
  1900 <= y
  /\ real_date y (embedded_month nik) (embedded_day nik) = true
  /\ Datetime.gt (Datetime.make y (embedded_month nik) (embedded_day nik)
                                0 0 0 0) now = false.
Proof.
  intros H16 Hok. cbv zeta.
  destruct (spec_embedded_date_ok_inv now nik Hok) as (Hd & Hm & Hdim & Hf).
  pose proof (embedded_yy_bounds nik H16) as Hyy.
  assert (Hy : 1900 <= spec_pivot_year (Datetime.year now) (embedded_yy nik)
               <= 2099).
  { unfold spec_pivot_year.
    destruct (embedded_yy nik <=? (Datetime.year now - 1900) mod 100); lia. }
  split; [lia |]. split; [| exact Hf].
  unfold real_date. zdecide. reflexivity.
Qed.

Lemma consistent_dates_clean (now : Datetime.t) (r : KTPData) (t : string) :
  is_16_digits (nik r) = true ->
  tanggal_lahir r = Some t -> str_truthy t = true ->
  spec_embedded_date_ok now (nik r) = true ->
  parse_declared t
  = Some (embedded_day (nik r), embedded_month (nik r),
          spec_pivot_year (Datetime.year now) (embedded_yy (nik r))) ->
  _validate_birth_date now t = Normal []
  /\ cross_date_defects now (embedded_raw_day (nik r))
       (embedded_month (nik r)) (embedded_yy (nik r)) (tanggal_lahir r)
     = [].
Proof.
  intros H16 Ht Htr Hok Ep.
  destruct (embedded_date_real now (nik r) H16 Hok) as (Hy & Hr & Hf).
  split.
  - apply validate_birth_date_clean_iff.
    eexists _, _, _. split; [exact Ep |]. repeat split; assumption.
  - unfold cross_date_defects. rewrite Ht, Htr, Ep.
    fold (embedded_female (nik r)). fold (embedded_day (nik r)).
    now rewrite !Z.eqb_refl.
Qed.

(** X18. On a record whose identity number has 16 digits and passes the
    embedded birth-date check, a declared birth date that parses into the
    embedded day, month and pivot year passes the rule of the declared date
    with no defect, and the cross-validation reports no date defect: the
    two date rules never disagree on a consistent record. *)
Theorem consistent_declared_date_passes (now : Datetime.t) (r : KTPData)
    (t : string) :
  is_16_digits (nik r) = true ->
  tanggal_lahir r = Some t -> str_truthy t = true ->
  spec_embedded_date_ok now (nik r) = true ->
  parse_declared t
  = Some (embedded_day (nik r), embedded_month (nik r),
          spec_pivot_year (Datetime.year now) (embedded_yy (nik r))) ->
  _validate_birth_date now t = Normal []
  /\ exists cl,
      _cross_validate_nik_data now r = Normal cl /\ ~ In msg_cross_date cl.
Proof.
  intros H16 Ht Htr Hok Ep.
  destruct (consistent_dates_clean now r t H16 Ht Htr Hok Ep) as [Hb Hc].
  split; [exact Hb |].
  eexists. split; [exact (cross_validate_16 now r H16) |].
  rewrite Hc, app_nil_r. unfold cross_sex_defects.
  destruct (jenis_kelamin r) as [g |]; [destruct (Bool.eqb _ _) |];
    cbn [In]; intuition discriminate.
Qed.

Lemma consistent_declared_date_passes_witness :
  is_16_digits (nik record_model_valid) = true
  /\ tanggal_lahir record_model_valid = Some "25-01-1990"
  /\ str_truthy "25-01-1990" = true
  /\ spec_embedded_date_ok noon_2024_06_15 (nik record_model_valid) = true
  /\ _validate_birth_date noon_2024_06_15 "25-01-1990" = Normal [].
Proof.
  assert (H1 : is_16_digits (nik record_model_valid) = true)
    by reflexivity.
  assert (H2 : tanggal_lahir record_model_valid = Some "25-01-1990")
    by reflexivity.
  assert (H3 : str_truthy "25-01-1990" = true) by reflexivity.
  assert (H4 : spec_embedded_date_ok noon_2024_06_15
                 (nik record_model_valid) = true) by reflexivity.
  assert (H5 : parse_declared "25-01-1990"
               = Some (embedded_day (nik record_model_valid),
                       embedded_month (nik record_model_valid),
                       spec_pivot_year (Datetime.year noon_2024_06_15)
                         (embedded_yy (nik record_model_valid))))
    by reflexivity.
  split; [exact H1 |]. split; [exact H2 |]. split; [exact H3 |].
  split; [exact H4 |].
  exact (proj1 (consistent_declared_date_passes noon_2024_06_15
                  record_model_valid "25-01-1990" H1 H2 H3 H4 H5)).
Defined.

(** ** The acceptance criterion of the validator *)

Lemma name_defects_nil (r : KTPData) :
  name_defects r = [] <-> (2 <= String.length (strip (nama r)))%nat.
Proof.
  unfold name_defects, str_truthy.
  destruct (String.eqb_spec (nama r) "") as [E | E]; cbn [negb orb].
  - rewrite E. cbn. split; [discriminate | lia].
  - destruct (Nat.ltb_spec (String.length (strip (nama r))) 2);
      split; intros H'; try discriminate H'; try reflexivity; lia.
Qed.

Lemma validate_province_cases (province : string) :
  (province_accepted (strip (upper province))
   /\ _validate_province province = Normal [])
  \/ (~ province_accepted (strip (upper province))
      /\ _validate_province province = Normal [msg_province ++ province]).
Proof.
  unfold _validate_province. cbv [returning_errors when append ret].
  set (u := strip (upper province)).
  destruct (str_in u valid_provinces) eqn:Ein; cbn [negb].
  - left. split; [| reflexivity].
    apply str_in_spec in Ein. exists u. split; [exact Ein | now left].
  - destruct (filter (fun p => contains u p || contains p u)
                     valid_provinces) as [| x l] eqn:Ef.
    + right. split; [| reflexivity].
      intros (m & Hm & Hacc).
      assert (Hx : In m (filter (fun p => contains u p || contains p u)
                                valid_provinces)).
      { apply filter_In. split; [exact Hm |].
        destruct Hacc as [-> | [Hs | Hs]].
        - apply str_in_spec in Hm. congruence.
        - apply contains_spec in Hs. now rewrite Hs.
        - apply contains_spec in Hs. rewrite Hs. apply orb_true_r. }
      rewrite Ef in Hx. destruct Hx.
    + left. split; [| reflexivity].
      assert (Hx : In x (filter (fun p => contains u p || contains p u)
                                valid_provinces))
        by (rewrite Ef; now left).
      apply filter_In in Hx. destruct Hx as [Hm Hc].
      exists x. split; [exact Hm |]. right.
      apply orb_prop in Hc.
      destruct Hc as [Hc | Hc]; apply contains_spec in Hc; tauto.
Qed.

Lemma province_defects_nil (r : KTPData) :
  province_defects r = []
  <-> forall p, provinsi r = Some p -> str_truthy p = true ->
                province_accepted (strip (upper p)).
Proof.
  unfold province_defects. destruct (provinsi r) as [p |].
  2:{ split; [intros _ p H; discriminate H | reflexivity]. }
  destruct (str_truthy p) eqn:Ht.
  2:{ split; [intros _ p' H Ht'; injection H as <-; congruence
             | reflexivity]. }
  destruct (validate_province_cases p) as [[Ha E] | [Ha E]]; rewrite E.
  - split; [intros _ p' H _; injection H as <-; exact Ha | reflexivity].
  - split; [discriminate |]. intros H. destruct Ha. now apply H.
Qed.

Lemma religion_defects_nil (r : KTPData) :
  religion_defects r = []
  <-> forall a, agama r = Some a -> str_truthy a = true ->
                In (upper a) valid_religions.
Proof.
  unfold religion_defects. destruct (agama r) as [a |].
  2:{ split; [intros _ a H; discriminate H | reflexivity]. }
  destruct (str_truthy a) eqn:Ht; cbn [andb].
  2:{ split; [intros _ a' H Ht'; injection H as <-; congruence
             | reflexivity]. }
  destruct (str_in (upper a) valid_religions) eqn:E; cbn [negb].
  - apply str_in_spec in E.
    split; [intros _ a' H _; injection H as <-; exact E | reflexivity].
  - split; [discriminate |]. intros H.
    assert (Hin : In (upper a) valid_religions) by now apply H.
    apply str_in_spec in Hin. congruence.
Qed.

Lemma rt_rw_defects_nil (r : KTPData) :
  rt_rw_defects r = []
  <-> forall a, rt_rw r = Some a -> str_truthy a = true ->
                _validate_rt_rw_format a = true.
Proof.
  unfold rt_rw_defects. destruct (rt_rw r) as [a |].
  2:{ split; [intros _ a H; discriminate H | reflexivity]. }
  destruct (str_truthy a) eqn:Ht; cbn [andb].
  2:{ split; [intros _ a' H Ht'; injection H as <-; congruence
             | reflexivity]. }
  destruct (_validate_rt_rw_format a) eqn:E; cbn [negb].
  - split; [intros _ a' H _; injection H as <-; exact E | reflexivity].
  - split; [discriminate |]. intros H.
    assert (Hx : _validate_rt_rw_format a = true) by now apply H.
    congruence.
Qed.

Lemma nik_defects_nil (now : Datetime.t) (r : KTPData) :
  nik_defects now r = [] <-> _validate_nik now (nik r) = Normal [].
Proof.
  unfold nik_defects.
  destruct (validate_nik_total now (nik r)) as [l E]. rewrite E.
  split; [now intros -> | intros H; now apply Normal_inj in H].
Qed.

(** The declared birth date and the cross-validation on a record whose
    identity number passes its rule. *)
Lemma dates_clean_iff (now : Datetime.t) (r : KTPData) :
  is_16_digits (nik r) = true ->
  spec_embedded_date_ok now (nik r) = true ->
  (birth_defects now r = Normal [] /\ cross_defects now r = []
   <-> forall t, tanggal_lahir r = Some t -> str_truthy t = true ->
       parse_declared t
       = Some (embedded_day (nik r), embedded_month (nik r),
               spec_pivot_year (Datetime.year now) (embedded_yy (nik r)))
       /\ forall g, jenis_kelamin r = Some g ->
                    embedded_female (nik r) = declared_female g).
Proof.
  intros H16 Hok.
  unfold birth_defects, cross_defects.
  rewrite (is_16_digits_truthy _ H16), (cross_validate_16 now r H16).
  cbn [andb]. unfold opt_truthy.
  destruct (tanggal_lahir r) as [t |] eqn:Et.
  2:{ split; [intros _ t H; discriminate H | now split]. }
  destruct (str_truthy t) eqn:Htr.
  2:{ split; [intros _ t' H Ht'; injection H as <-; congruence
             | now split]. }
  split.
  - intros [Hb Hc] t' H _. injection H as <-.
    apply app_eq_nil in Hc. destruct Hc as [Hsex Hdate].
    apply validate_birth_date_clean_iff in Hb.
    destruct Hb as (d & m & y & Ep & _).
    unfold cross_date_defects in Hdate. rewrite Htr, Ep in Hdate.
    fold (embedded_female (nik r)) in Hdate.
    fold (embedded_day (nik r)) in Hdate.
    destruct (Z.eqb_spec (embedded_day (nik r)) d) as [<- |];
      [| discriminate Hdate].
    destruct (Z.eqb_spec (embedded_month (nik r)) m) as [<- |];
      [| discriminate Hdate].
    destruct (Z.eqb_spec
                (spec_pivot_year (Datetime.year now) (embedded_yy (nik r)))
                y) as [<- |]; [| discriminate Hdate].
    split; [exact Ep |].
    intros g Hg. unfold cross_sex_defects in Hsex. rewrite Hg in Hsex.
    fold (embedded_female (nik r)) in Hsex.
    destruct (embedded_female (nik r)); destruct (declared_female g);
      try reflexivity; discriminate Hsex.
  - intros H. destruct (H t eq_refl Htr) as [Ep Hsex].
    assert (Et' : tanggal_lahir r = Some t) by exact Et.
    destruct (consistent_dates_clean now r t H16 Et' Htr Hok Ep)
      as [Hb Hc].
    split; [exact Hb |]. rewrite Et in Hc. rewrite Hc, app_nil_r.
    unfold cross_sex_defects. destruct (jenis_kelamin r) as [g |];
      [| reflexivity].
    fold (embedded_female (nik r)). rewrite (Hsex g eq_refl).
    now destruct (declared_female g).
Qed.

Lemma outcome_clean_iff (l : list string) :
  Normal (outcome_of l) = Normal (true, []) <-> l = [].
Proof.
  unfold outcome_of. split.
  - intros H. apply Normal_inj in H. now injection H.
  - now intros ->.
Qed.

(** X19. The acceptance criterion: on a record whose identity number has 16
    digits, the validator returns the valid outcome with no defect if and
    only if the identity number decodes into non-zero region segments, an
    acceptable embedded birth date and a non-zero sequence number, the
    trimmed name has two characters or more, a present declared birth date
    parses into the embedded date and a present sex then is the embedded
    sex, a present province is accepted, a present religion is listed and a
    present RT/RW pair has the format. *)
Theorem validate_accepts_iff (now : Datetime.t) (r : KTPData) :
  is_16_digits (nik r) = true ->
  (validate_ktp_data now r = Normal (true, []) <-> clean_record now r).
Proof.
  intros H16. rewrite validate_ktp_data_explicit. unfold clean_record.
  rewrite <- (nik_clean_16 now (nik r) H16), <- nik_defects_nil.
  rewrite <- name_defects_nil, <- province_defects_nil,
    <- religion_defects_nil, <- rt_rw_defects_nil.
  split.
  - destruct (birth_defects now r) as [ld | e] eqn:Eb; [| discriminate].
    intros H. apply outcome_clean_iff in H. unfold all_defects in H.
    repeat match type of H with
           | List.app _ _ = [] =>
               apply app_eq_nil in H;
               let Hx := fresh "Hpart" in destruct H as [Hx H]
           end.
    subst ld.
    assert (Hok : spec_embedded_date_ok now (nik r) = true).
    { apply nik_defects_nil in Hpart.
      apply (nik_clean_16 now (nik r) H16) in Hpart. tauto. }
    split; [assumption |]. split; [assumption |].
    split; [apply (dates_clean_iff now r H16 Hok); now split |].
    split; [assumption |]. split; assumption.
  - intros (Hn & Hname & Hd & Hp & Ha & Hr).
    assert (Hok : spec_embedded_date_ok now (nik r) = true).
    { apply nik_defects_nil in Hn.
      apply (nik_clean_16 now (nik r) H16) in Hn. tauto. }
    apply (dates_clean_iff now r H16 Hok) in Hd. destruct Hd as [Hb Hc].
    rewrite Hb. apply outcome_clean_iff. unfold all_defects.
    now rewrite Hn, Hname, Hp, Ha, Hr, Hc.
Qed.

Lemma validate_accepts_iff_witness :
  is_16_digits (nik record_full) = true
  /\ (validate_ktp_data noon_2024_06_15 record_full = Normal (true, [])
      <-> clean_record noon_2024_06_15 record_full).
Proof.
  split; [reflexivity |].
  apply (validate_accepts_iff noon_2024_06_15 record_full). reflexivity.
Defined.

(** ** Exceptions of the validator *)

(** X20. The validator raises if and only if the declared birth date is
    present and parses into three integers of which one is no C [int], and
    what it raises then is [OverflowError]; on every other record it
    returns its outcome. *)
Theorem validator_raises_exactly_on_overflow (now : Datetime.t)
    (r : KTPData) :
  ((exists e, validate_ktp_data now r = Raise e)
   <-> record_overflows r = true)
  /\ (forall e, validate_ktp_data now r = Raise e -> e = OverflowError)
  /\ (record_overflows r = false ->
      exists errs, validate_ktp_data now r = Normal (outcome_of errs)).
Proof.
  split; [| split].
  - split.
    + intros [e He]. destruct (record_overflows r) eqn:Hov; [reflexivity |].
      destruct (validate_ktp_data_parts now r Hov)
        as (ne & fs & cl & _ & _ & _ & _ & Hv).
      rewrite Hv in He. discriminate He.
    + intros Hov. exists OverflowError.
      now apply validate_ktp_data_overflow.
  - intros e He. destruct (record_overflows r) eqn:Hov.
    + rewrite (validate_ktp_data_overflow now r Hov) in He. congruence.
    + destruct (validate_ktp_data_parts now r Hov)
        as (ne & fs & cl & _ & _ & _ & _ & Hv).
      rewrite Hv in He. discriminate He.
  - intros Hov.
    destruct (validate_ktp_data_parts now r Hov)
      as (ne & fs & cl & _ & _ & _ & _ & Hv).
    eexists. exact Hv.
Qed.

(** X21. On a declared birth date in ASCII text that the model's validator
    accepts, the format check and the range checks on day and month of
    [_validate_birth_date] never fire: the date parses and the defects are
    those of the year range and of the calendar or future check alone.
    (Outside ASCII [str.isdigit] takes superscript digits, which [int()]
    refuses: such a date passes the model and gets the format defect.) *)
Theorem model_date_defects (now : Datetime.t) (t : string) :
  is_ascii t = true ->
  KTPModel._is_valid_date_format t = true ->
  exists d m y,
    parse_declared t = Some (d, m, y)
    /\ _validate_birth_date now t
       = Normal
           (List.app
              (if (y <? 1900) || (y >? Datetime.year now)
               then [msg_year ++ str_of_int y] else [])
              (if real_date y m d
               then (if Datetime.gt (Datetime.make y m d 0 0 0 0) now
                     then [msg_future] else [])
               else [msg_day ++ t])).
Proof.
  intros _ H.
  destruct (is_valid_date_format_parses t H)
    as (d & m & y & Ep & Hd & Hm & Hy).
  exists d, m, y. split; [exact Ep |].
  assert (Hov : date_overflows t = false).
  { unfold date_overflows. rewrite Ep. unfold Datetime.fits_c_int.
    zdecide. reflexivity. }
  rewrite (validate_birth_date_parsed now t d m y Ep Hov).
  unfold declared_date_defects.
  rewrite (ltb_false d 1), (gtb_false d 31), (ltb_false m 1),
    (gtb_false m 12) by lia.
  reflexivity.
Qed.

Lemma model_date_defects_witness :
  is_ascii "31-02-2000" = true
  /\ KTPModel._is_valid_date_format "31-02-2000" = true
  /\ exists d m y,
      parse_declared "31-02-2000" = Some (d, m, y)
      /\ _validate_birth_date noon_2024_06_15 "31-02-2000"
         = Normal
             (List.app
                (if (y <? 1900) || (y >? Datetime.year noon_2024_06_15)
                 then [msg_year ++ str_of_int y] else [])
                (if real_date y m d
                 then (if Datetime.gt (Datetime.make y m d 0 0 0 0)
                                     noon_2024_06_15
                       then [msg_future] else [])
                 else [msg_day ++ "31-02-2000"])).
Proof.
  split; [reflexivity |]. split; [reflexivity |].
  apply (model_date_defects noon_2024_06_15 "31-02-2000"); reflexivity.
Defined.

(** ** The normal form of a province *)

Lemma upper_char_idem (c : ascii) : upper_char (upper_char c) = upper_char c.
Proof. destruct c as [[] [] [] [] [] [] [] []]; reflexivity. Qed.

Lemma is_space_upper_char (c : ascii) : is_space (upper_char c) = is_space c.
Proof. destruct c as [[] [] [] [] [] [] [] []]; reflexivity. Qed.

Lemma upper_idem (s : string) : upper (upper s) = upper s.
Proof.
  induction s as [| c s IH]; [reflexivity |].
  cbn [upper]. now rewrite upper_char_idem, IH.
Qed.

Lemma upper_lstrip (s : string) :
  upper (lstrip_by is_space s) = lstrip_by is_space (upper s).
Proof.
  induction s as [| c s IH]; [reflexivity |].
  cbn [upper lstrip_by]. rewrite is_space_upper_char.
  destruct (is_space c); [exact IH | reflexivity].
Qed.

Lemma upper_rstrip (s : string) :
  upper (rstrip_by is_space s) = rstrip_by is_space (upper s).
Proof.
  induction s as [| c s IH]; [reflexivity |].
  cbn [upper rstrip_by]. rewrite <- IH, is_space_upper_char.
  destruct (rstrip_by is_space s) as [| c' s']; cbn [upper];
    [destruct (is_space c) |]; reflexivity.
Qed.

Lemma rstrip_idem (s : string) :
  rstrip_by is_space (rstrip_by is_space s) = rstrip_by is_space s.
Proof.
  induction s as [| c s IH]; [reflexivity |].
  cbn [rstrip_by].
  destruct (rstrip_by is_space s) as [| c' s'] eqn:E.
  - destruct (is_space c) eqn:Ec; [reflexivity |].
    cbn [rstrip_by]. now rewrite Ec.
  - cbn [rstrip_by]. cbn [rstrip_by] in IH.
    destruct (rstrip_by is_space s') as [| c'' s''] eqn:E'.
    + destruct (is_space c') eqn:Ec'; [discriminate IH |].
      now rewrite IH.
    + now rewrite IH.
Qed.

Lemma lstrip_rstrip_lstrip (s : string) :
  lstrip_by is_space (rstrip_by is_space (lstrip_by is_space s))
  = rstrip_by is_space (lstrip_by is_space s).
Proof.
  induction s as [| c s IH]; [reflexivity |].
  cbn [lstrip_by]. destruct (is_space c) eqn:Ec; [exact IH |].
  cbn [rstrip_by].
  destruct (rstrip_by is_space s) as [| c' s'];
    rewrite ?Ec; cbn [lstrip_by]; now rewrite Ec.
Qed.

Lemma strip_idem (s : string) : strip (strip s) = strip s.
Proof.
  unfold strip, strip_by.
  now rewrite lstrip_rstrip_lstrip, rstrip_idem.
Qed.

Lemma upper_strip (s : string) : upper (strip s) = strip (upper s).
Proof.
  unfold strip, strip_by. now rewrite upper_rstrip, upper_lstrip.
Qed.

(** X22. The province check sees the province through its normal form
    alone: a province is accepted if and only if its upper-cased and
    trimmed form is accepted, so letter case and surrounding white space
    never change the verdict. *)
Theorem validate_province_normal_form (province : string) :
  _validate_province province = Normal []
  <-> _validate_province (strip (upper province)) = Normal [].
Proof.
  assert (E : strip (upper (strip (upper province))) = strip (upper province))
    by (now rewrite upper_strip, upper_idem, strip_idem).
  destruct (validate_province_cases province) as [[Ha Hr] | [Ha Hr]];
    destruct (validate_province_cases (strip (upper province)))
      as [[Ha' Hr'] | [Ha' Hr']];
    rewrite E in Ha'; try contradiction;
    rewrite Hr, Hr'; split; intros H; try reflexivity; discriminate H.
Qed.
